(** * azure_rm_redis: desired-state reconciliation of an Azure Redis cache

    Shallow embedding of [lib/ansible/modules/cloud/azure/azure_rm_redis.py]
    (class [AzureRMRedisCache]): [exec_module], [populate_results] and
    [check_resource_created], over an abstract Redis management client.

    The Python object [self], the remote provider and the log of RPCs are
    threaded through a small state-and-error monad. *)

From Stdlib Require Import ZArith Lia List Bool.
From stdpp Require Import gmap strings list fin_maps.

Local Open Scope string_scope.
Local Open Scope list_scope.
Local Open Scope Z_scope.

(** ** Data model *)

(** Exceptions the module can see.  [CloudError] is msrestazure's error for a
    failed management call (it carries the HTTP status of the reply, 404 when
    the resource does not exist); [PyException] stands for any other
    subclass of [Exception] (transport failures, [AttributeError], ...). *)
Inductive exn : Type :=
| CloudError (status_code : Z) (message : string)
| PyException (message : string).

Definition str (e : exn) : string :=
  match e with
  | CloudError _ m => m
  | PyException m => m
  end.

Definition is_CloudError (e : exn) : bool :=
  match e with CloudError _ _ => true | PyException _ => false end.

Definition is_not_found (e : exn) : bool :=
  match e with CloudError code _ => code =? 404 | PyException _ => false end.

(** [state=dict(type='str', default='present', choices=['present', 'absent'])] *)
Inductive State : Type := present | absent.

Definition State_eqb (a b : State) : bool :=
  match a, b with
  | present, present | absent, absent => true
  | _, _ => false
  end.

Definition State_str (s : State) : string :=
  match s with present => "present" | absent => "absent" end.

(** [azure.mgmt.redis.models.Sku] *)
Record Sku : Type := mkSku {
  sku_name : string;
  sku_family : string;
  sku_capacity : option Z
}.

(** [azure.mgmt.redis.models.RedisCreateParameters]; a keyword passed as
    Python's [None] is [None] here. *)
Record RedisCreateParameters : Type := mkRedisCreateParameters {
  cp_location : option string;
  cp_sku : Sku;
  cp_tags : option (gmap string string);
  cp_redis_configuration : option (gmap string string);
  cp_enable_non_ssl_port : option bool;
  cp_tenant_settings : option (gmap string string);
  cp_shard_count : option Z;
  cp_subnet_id : option string;
  cp_static_ip : option string
}.

Record RedisAccessKeys : Type := mkRedisAccessKeys {
  primary_key : string;
  secondary_key : string
}.

(** The resource object the SDK hands back from [get] and from
    [create(...).result()].  An attribute the provider left out is [None]. *)
Record RedisResource : Type := mkRedisResource {
  r_id : option string;
  r_name : option string;
  r_location : option string;
  r_tags : option (gmap string string);
  r_provisioning_state : option string;
  r_host_name : option string;
  r_redis_version : option string;
  r_sku : option Sku;
  r_enable_non_ssl_port : option bool;
  r_redis_configuration : option (gmap string string);
  r_access_keys : option RedisAccessKeys;
  r_port : option Z;
  r_ssl_port : option Z
}.

(** Python values stored in the [self.results] dictionary. *)
Inductive value : Type :=
| VNone
| VBool (b : bool)
| VInt (z : Z)
| VStr (s : string)
| VDict (d : gmap string string)
| VSku (s : Sku)
| VKeys (k : RedisAccessKeys).

Definition of_option {A : Type} (inj : A -> value) (o : option A) : value :=
  match o with
  | Some a => inj a
  | None => VNone
  end.

(** The module arguments ([kwargs], copied onto [self] by the [setattr] loop
    at the top of [exec_module]) together with the [check_mode] flag. *)
Record Params : Type := mkParams {
  name : string;
  state : State;
  location : option string;
  resource_group_name : string;
  tags : option (gmap string string);
  p_sku_name : string;
  p_sku_family : string;
  p_sku_capacity : option Z;
  redis_configuration : gmap string string;
  enable_nonssl_port : bool;
  shard_count : Z;
  subnet_id : string;
  static_ip : string;
  check_mode : bool
}.

(** ** The Redis management client *)

Inductive reply (A : Type) : Type :=
| Returns (a : A)
| Raises (e : exn).
Arguments Returns {A} a.
Arguments Raises {A} e.

(** [self.redis_client.redis]: an opaque RPC collaborator whose own state is
    [W].  [redis_create] stands for [create(...).result()], [redis_delete]
    for [delete(...)] (which hands back a poller) and [poller_result] for
    the base class's [get_poller_result(poller)].  The [redis_client]
    property itself (lazy construction of the client, registration of the
    resource provider) issues no call on the cache and is left out. *)
Record RedisClient (W : Type) : Type := mkRedisClient {
  redis_get : string -> string -> W -> reply RedisResource * W;
  redis_create :
    string -> string -> RedisCreateParameters -> W -> reply RedisResource * W;
  redis_delete : string -> string -> W -> reply unit * W;
  poller_result : W -> reply unit * W
}.
Arguments redis_get {W} _ _ _ _.
Arguments redis_create {W} _ _ _ _ _.
Arguments redis_delete {W} _ _ _ _.
Arguments poller_result {W} _ _.

(** What the module does to the outside world, in order. *)
Inductive Event : Type :=
| EvGet (rg nm : string)
| EvCreate (rg nm : string) (parameters : RedisCreateParameters)
| EvDelete (rg nm : string)
| EvPollerResult
| EvSleep (seconds : Z).

Definition is_get (e : Event) : bool :=
  match e with EvGet _ _ => true | _ => false end.
Definition is_create (e : Event) : bool :=
  match e with EvCreate _ _ _ => true | _ => false end.
Definition is_delete (e : Event) : bool :=
  match e with EvDelete _ _ => true | _ => false end.
Definition is_mutating (e : Event) : bool := is_create e || is_delete e.

Definition count_calls (p : Event -> bool) (tr : list Event) : nat :=
  length (List.filter p tr).

(** The parameters of every [create] call of a trace. *)
Definition created_with (tr : list Event) : list RedisCreateParameters :=
  flat_map (fun e => match e with EvCreate _ _ p => [p] | _ => [] end) tr.

(** ** Module state and the monad *)

(** The mutable attributes of [self], the provider and the trace. *)
Record St (W : Type) : Type := mkSt {
  redis_cache : option RedisResource;
  to_update : bool;
  results : gmap string value;
  world : W;
  calls : list Event
}.
Arguments mkSt {W} _ _ _ _ _.
Arguments redis_cache {W} _.
Arguments to_update {W} _.
Arguments results {W} _.
Arguments world {W} _.
Arguments calls {W} _.

(** How a piece of Python ends: it yields a value, an exception escapes, or
    [self.fail(msg)] ([fail_json]) terminates the module run. *)
Inductive res (A : Type) : Type :=
| Ok (a : A)
| Raise (e : exn)
| FailJson (msg : string).
Arguments Ok {A} a.
Arguments Raise {A} e.
Arguments FailJson {A} msg.

(** [None] only when the fuel of a loop runs out. *)
Definition M (W A : Type) : Type := St W -> option (res A * St W).

Definition ret {W A} (a : A) : M W A := fun s => Some (Ok a, s).

Definition bind {W A B} (m : M W A) (k : A -> M W B) : M W B :=
  fun s =>
    match m s with
    | None => None
    | Some (Ok a, s') => k a s'
    | Some (Raise e, s') => Some (Raise e, s')
    | Some (FailJson msg, s') => Some (FailJson msg, s')
    end.

Declare Scope py_scope.
Delimit Scope py_scope with py.
Notation "x <~ c ;; k" := (bind c (fun x => k))
  (at level 100, c at next level, right associativity) : py_scope.
Notation "c ;;; k" := (bind c (fun _ => k))
  (at level 100, right associativity) : py_scope.
Local Open Scope py_scope.

Definition raise {W A} (e : exn) : M W A := fun s => Some (Raise e, s).
Definition fail {W A} (msg : string) : M W A := fun s => Some (FailJson msg, s).
Definition out_of_fuel {W A} : M W A := fun _ => None.

(** [self.log(...)] only writes to the debug log. *)
Definition log {W} (msg : string) : M W unit := ret tt.

(** [try: body except CloudError as exc: handler] *)
Definition try_except_CloudError {W A}
    (body : M W A) (handler : exn -> M W A) : M W A :=
  fun s =>
    match body s with
    | Some (Raise e, s') =>
        if is_CloudError e then handler e s' else Some (Raise e, s')
    | r => r
    end.

(** [try: body except Exception as exc: handler] *)
Definition try_except_Exception {W A}
    (body : M W A) (handler : exn -> M W A) : M W A :=
  fun s =>
    match body s with
    | Some (Raise e, s') => handler e s'
    | r => r
    end.

Definition emit {W} (e : Event) : M W unit :=
  fun s => Some (Ok tt, mkSt (redis_cache s) (to_update s) (results s)
                             (world s) (calls s ++ [e])).

Definition get_redis_cache {W} : M W (option RedisResource) :=
  fun s => Some (Ok (redis_cache s), s).
Definition set_redis_cache {W} (r : RedisResource) : M W unit :=
  fun s => Some (Ok tt, mkSt (Some r) (to_update s) (results s)
                             (world s) (calls s)).
Definition get_to_update {W} : M W bool :=
  fun s => Some (Ok (to_update s), s).
Definition set_to_update {W} (b : bool) : M W unit :=
  fun s => Some (Ok tt, mkSt (redis_cache s) b (results s)
                             (world s) (calls s)).
Definition get_results {W} : M W (gmap string value) :=
  fun s => Some (Ok (results s), s).
(** [self.results[key] = v] *)
Definition set_result {W} (key : string) (v : value) : M W unit :=
  fun s => Some (Ok tt, mkSt (redis_cache s) (to_update s)
                             (<[key := v]> (results s)) (world s) (calls s)).

(** A call of the provider: the reply comes from the client, the provider's
    state moves on. *)
Definition rpc {W A} (e : Event) (call : W -> reply A * W) : M W A :=
  fun s =>
    let '(r, w') := call (world s) in
    let s' := mkSt (redis_cache s) (to_update s) (results s) w'
                   (calls s ++ [e]) in
    match r with
    | Returns a => Some (Ok a, s')
    | Raises e => Some (Raise e, s')
    end.

(** [time.sleep(delay)] *)
Definition sleep {W} (delay : Z) : M W unit := emit (EvSleep delay).

(** ** The module *)

(** [self.results] as [__init__] builds it. *)
Definition initial_results : gmap string value :=
  list_to_map
    [("id", VNone); ("name", VNone); ("location", VNone); ("tags", VNone);
     ("provisioning_state", VNone); ("accessKeys", VNone);
     ("hostname", VNone); ("redis_version", VNone); ("sku", VNone);
     ("enable_nonssl_port", VNone); ("redis_configuration", VNone);
     ("port", VNone); ("ssl_port", VNone); ("changed", VNone);
     ("state", VDict ∅)].

(** The object right after [__init__], facing a provider in state [w]. *)
Definition init {W} (w : W) : St W := mkSt None false initial_results w [].

Section Module.

Context {W : Type}.
Variable client : RedisClient W.
Variable self : Params.

Definition get (rg nm : string) : M W RedisResource :=
  rpc (EvGet rg nm) (redis_get client rg nm).
Definition create (rg nm : string) (parameters : RedisCreateParameters)
  : M W RedisResource :=
  rpc (EvCreate rg nm parameters) (redis_create client rg nm parameters).
Definition delete_ (rg nm : string) : M W unit :=
  rpc (EvDelete rg nm) (redis_delete client rg nm).
Definition get_poller_result : M W unit :=
  rpc EvPollerResult (poller_result client).

(** An attribute read on [self.redis_cache]; on [None] Python raises
    [AttributeError]. *)
Definition cache_attr {A} (f : RedisResource -> A) : M W A :=
  c <~ get_redis_cache ;;
  match c with
  | Some r => ret (f r)
  | None => raise (PyException "AttributeError")
  end.

(** [populate_results], lines 367-380. *)
Definition populate_results : M W unit :=
  v <~ cache_attr r_id ;; set_result "id" (of_option VStr v) ;;;
  v <~ cache_attr r_name ;; set_result "name" (of_option VStr v) ;;;
  v <~ cache_attr r_location ;; set_result "location" (of_option VStr v) ;;;
  v <~ cache_attr r_tags ;; set_result "tags" (of_option VDict v) ;;;
  v <~ cache_attr r_provisioning_state ;;
    set_result "provisioning_state" (of_option VStr v) ;;;
  v <~ cache_attr r_host_name ;; set_result "hostname" (of_option VStr v) ;;;
  v <~ cache_attr r_redis_version ;;
    set_result "redis_version" (of_option VStr v) ;;;
  v <~ cache_attr r_sku ;; set_result "sku" (of_option VSku v) ;;;
  v <~ cache_attr r_ssl_port ;;
    set_result "enable_nonssl_port" (of_option VInt v) ;;;
  v <~ cache_attr r_access_keys ;;
    set_result "accessKeys" (of_option VKeys v) ;;;
  ret tt.

(** [self.redis_cache.provisioning_state == 'Succeeded'] *)
Definition succeeded (r : RedisResource) : bool :=
  match r_provisioning_state r with
  | Some s => String.eqb s "Succeeded"
  | None => false
  end.

(** The [while] loop of [check_resource_created], lines 386-395; one unit of
    fuel per evaluation of the loop condition. *)
Fixpoint wait_loop (fuel : nat) (delay count : Z) : M W bool :=
  match fuel with
  | O => out_of_fuel
  | S fuel' =>
      done <~ cache_attr succeeded ;;
      if negb done then
        log "Waiting for {0} sec" ;;;
        sleep delay ;;;
        let count := count + 1 in
        r <~ get (resource_group_name self) (name self) ;;
        set_redis_cache r ;;;
        if count =? 180 then
          log "Waited for 30 min, this sucks, bailing out" ;;;
          ret false
        else wait_loop fuel' delay count
      else ret true
  end.

(** [check_resource_created], lines 381-398. *)
Definition check_resource_created (fuel : nat) : M W bool :=
  try_except_Exception
    (let delay := 10 in
     let count := 0 in
     wait_loop fuel delay count)
    (fun exc => log (str exc) ;;; raise exc).

(** The [RedisCreateParameters(...)] expression of lines 311-316 and
    335-340 (the two are the same text). *)
Definition create_parameters : RedisCreateParameters :=
  mkRedisCreateParameters
    (location self)
    (mkSku (p_sku_name self) (p_sku_family self) (p_sku_capacity self))
    (tags self) None None None None None None.

(** Lines 330-353: create the resource. *)
Definition create_block (fuel : nat) : M W (gmap string value) :=
  try_except_CloudError
    (r <~ create (resource_group_name self) (name self) create_parameters ;;
     set_redis_cache r ;;;
     ok <~ check_resource_created fuel ;;
     (if negb ok then
        populate_results ;;;
        fail "Waited too long, resource might be created"
      else ret tt) ;;;
     log "redis_cache")
    (fun exc => fail ("Failed with " +:+ str exc)) ;;;
  set_result "changed" (VBool true) ;;;
  set_result "state" (VStr "present") ;;;
  populate_results ;;;
  get_results.

(** Lines 304-328: update of an existing cache. *)
Definition update_block : M W (gmap string value) :=
  try_except_CloudError
    (r <~ create (resource_group_name self) (name self) create_parameters ;;
     set_redis_cache r ;;;
     log "redis_cache")
    (fun exc => fail ("Failed with " +:+ str exc)) ;;;
  log "Successfuly updated the Redis cache" ;;;
  log "getting the updated cache resource" ;;;
  set_result "changed" (VBool true) ;;;
  set_result "state" (VStr "present") ;;;
  populate_results ;;;
  get_results.

(** Lines 290-302: delete. *)
Definition delete_block : M W (gmap string value) :=
  log "CHANGED: redis cache {0} exists but requested state is 'absent'" ;;;
  log "Will be deleting the resource" ;;;
  try_except_CloudError
    (delete_ (resource_group_name self) (name self) ;;;
     get_poller_result)
    (fun exc => fail ("Failed with " +:+ str exc)) ;;;
  let changed := true in
  set_result "changed" (VBool changed) ;;;
  set_result "state" (VStr "absent") ;;;
  get_results.

(** Lines 290-353, the part of [exec_module] after the check-mode block. *)
Definition apply_block (fuel : nat) : M W (gmap string value) :=
  upd <~ get_to_update ;;
  if State_eqb (state self) absent && upd then delete_block
  else if State_eqb (state self) present && upd then update_block
  else create_block fuel.

(** [exec_module], lines 250-353.  The [else if] of line 283 is read as
    [elif]; the locals [results], [rg] and [contains_resources] are never
    used, and [changed] is [False] wherever the check-mode block reads it. *)
Definition exec_module (fuel : nat) : M W (gmap string value) :=
  let changed := false in
  log "Fetching existing redis cache {0}" ;;;
  try_except_CloudError
    (r <~ get (resource_group_name self) (name self) ;;
     set_redis_cache r ;;;
     set_to_update true)
    (fun exc => log "Redis cache does not exists its an update operation") ;;;
  upd <~ get_to_update ;;
  if check_mode self then
    if State_eqb (state self) absent && upd then
      set_result "changed" (VBool true) ;;;
      set_result "state" (VStr "absent") ;;;
      get_results
    else if State_eqb (state self) present && upd then
      set_result "changed" (VBool true) ;;;
      set_result "state" (VStr "present") ;;;
      get_results
    else if State_eqb (state self) present then
      set_result "changed" (VBool changed) ;;;
      set_result "state" (VStr "present") ;;;
      set_result "name" (VStr (name self)) ;;;
      get_results
    else apply_block fuel
  else apply_block fuel.

End Module.

(** ** A scripted provider for concrete runs *)

Module Mock.

(** The provider's state is the number of [get] calls answered so far; the
    [n]-th [get] (from 0) is answered by [gets n]. *)
Definition scripted (gets : nat -> reply RedisResource)
    (created : reply RedisResource) (deleted polled : reply unit)
  : RedisClient nat :=
  mkRedisClient nat
    (fun _ _ n => (gets n, S n))
    (fun _ _ _ n => (created, n))
    (fun _ _ n => (deleted, n))
    (fun n => (polled, n)).

(** The cache of the module's RETURN sample, in a given provisioning state. *)
Definition cache (provisioning : string) : RedisResource :=
  mkRedisResource
    (Some "subscriptions/sub/resourceGroups/rg1/providers/Microsoft.Cache/Redis/cache1")
    (Some "cache1") (Some "westus") None (Some provisioning)
    (Some "cache1.redis.cache.windows.net") (Some "3.0")
    (Some (mkSku "Premium" "P" (Some 1))) (Some false)
    (Some {[ "maxmemory-policy" := "allkeys-lru" ]})
    (Some (mkRedisAccessKeys "secretkey1" "secretKey2"))
    (Some 6379) (Some 6380).

Definition not_found : exn := CloudError 404 "ResourceNotFound".
Definition forbidden : exn := CloudError 403 "AuthorizationFailed".

(** Scripts of [get] replies. *)
Definition always (r : reply RedisResource) : nat -> reply RedisResource :=
  fun _ => r.

Definition first_then (first : reply RedisResource)
    (rest : nat -> reply RedisResource) : nat -> reply RedisResource :=
  fun n => match n with O => first | S n' => rest n' end.

(** "Running" for the first [K] calls, "Succeeded" from then on. *)
Definition running_then_succeeded (K : nat) : nat -> reply RedisResource :=
  fun n =>
    if (n <? K)%nat then Returns (cache "Running")
    else Returns (cache "Succeeded").

(** The object on entry of the wait, [create] having returned [r]. *)
Definition created (r : RedisResource) : St nat :=
  mkSt (Some r) false initial_results 0%nat [].

(** desired = cache1 in rg1, Premium P 1, two shards *)
Definition desired (st : State) (dry_run : bool) : Params :=
  mkParams "cache1" st (Some "westus") "rg1" None "Premium" "P" (Some 1)
    {[ "maxmemory-policy" := "allkeys-lru" ]} true 2
    "/subscriptions/sub/resourceGroups/rg1/providers/Microsoft.Network/virtualNetworks/n1/subnets/s1"
    "192.168.0.5" dry_run.

End Mock.

(** ** Polling traces and the provider's replies to successive [get]s *)

(** [n] rounds of the wait loop: sleep ten seconds, then [get]. *)
Fixpoint polls (rg nm : string) (n : nat) : list Event :=
  match n with
  | O => []
  | S n' => EvSleep 10 :: EvGet rg nm :: polls rg nm n'
  end.

Section Replies.

Context {W : Type}.
Variable client : RedisClient W.
Variable self : Params.

(** The provider's state after it answered [n] more [get] calls. *)
Fixpoint world_after_gets (n : nat) (w : W) : W :=
  match n with
  | O => w
  | S n' =>
      world_after_gets n'
        (snd (redis_get client (resource_group_name self) (name self) w))
  end.

(** The reply to the [n]-th [get] call (from 0) issued from state [w]. *)
Definition nth_get (n : nat) (w : W) : reply RedisResource :=
  fst (redis_get client (resource_group_name self) (name self)
         (world_after_gets n w)).

End Replies.

(** The run of one module invocation against a provider in state [w]. *)
Definition run {W} (client : RedisClient W) (self : Params) (fuel : nat) (w : W)
  : option (res (gmap string value) * St W) :=
  exec_module client self fuel (init w).

(** ** Specifications of states, results and traces *)

(** [s'] is [s] after [n] polling rounds: nothing but sleeps and [get]s
    happened, and only [redis_cache] was reassigned. *)
Definition polled {W} (client : RedisClient W) (self : Params)
    (s s' : St W) (n : nat) : Prop :=
  calls s' = calls s ++ polls (resource_group_name self) (name self) n /\
  results s' = results s /\
  to_update s' = to_update s /\
  world s' = world_after_gets client self n (world s).

(** [self.results] after [populate_results] copied the cache [r] into it. *)
Definition populated (r : RedisResource) (m : gmap string value)
  : gmap string value :=
  <["accessKeys" := of_option VKeys (r_access_keys r)]>
  (<["enable_nonssl_port" := of_option VInt (r_ssl_port r)]>
  (<["sku" := of_option VSku (r_sku r)]>
  (<["redis_version" := of_option VStr (r_redis_version r)]>
  (<["hostname" := of_option VStr (r_host_name r)]>
  (<["provisioning_state" := of_option VStr (r_provisioning_state r)]>
  (<["tags" := of_option VDict (r_tags r)]>
  (<["location" := of_option VStr (r_location r)]>
  (<["name" := of_option VStr (r_name r)]>
  (<["id" := of_option VStr (r_id r)]> m))))))))).

(** [self.results] once [changed] and [state] are assigned. *)
Definition reported (changed : bool) (st : State) (m : gmap string value)
  : gmap string value :=
  <["state" := VStr (State_str st)]> (<["changed" := VBool changed]> m).

(** The state after the initial fetch found the cache [r]. *)
Definition fetched {W} (self : Params) (r : RedisResource) (w : W) : St W :=
  mkSt (Some r) true initial_results w
       [EvGet (resource_group_name self) (name self)].

(** The state after the initial fetch raised. *)
Definition missing {W} (self : Params) (w : W) : St W :=
  mkSt None false initial_results w
       [EvGet (resource_group_name self) (name self)].

(** What [self.fail] reports for a provider error. *)
Definition failed_with (e : exn) : string := "Failed with " +:+ str e.

(** How a caught-or-escaping exception [e] ends a [try ... except CloudError]
    block whose handler calls [self.fail]. *)
Definition surfaced {A} (e : exn) : res A :=
  if is_CloudError e then FailJson (failed_with e) else Raise e.

(** The message of the failure raised when the wait gives up. *)
Definition waited_too_long : string :=
  "Waited too long, resource might be created".

(** The RPC traces an invocation can leave behind. *)
Inductive run_trace (self : Params) : list Event -> Prop :=
| trace_fetch :
    run_trace self [EvGet (resource_group_name self) (name self)]
| trace_delete :
    run_trace self [EvGet (resource_group_name self) (name self);
                    EvDelete (resource_group_name self) (name self)]
| trace_delete_awaited :
    run_trace self [EvGet (resource_group_name self) (name self);
                    EvDelete (resource_group_name self) (name self);
                    EvPollerResult]
| trace_create n :
    (n <= 180)%nat ->
    run_trace self
      (EvGet (resource_group_name self) (name self)
       :: EvCreate (resource_group_name self) (name self)
                   (create_parameters self)
       :: polls (resource_group_name self) (name self) n).

(** The keys of [self.results] that describe the cache itself. *)
Definition snapshot_keys : list string :=
  ["id"; "name"; "location"; "tags"; "provisioning_state"; "accessKeys";
   "hostname"; "redis_version"; "sku"; "enable_nonssl_port";
   "redis_configuration"; "port"; "ssl_port"].

Definition no_snapshot (m : gmap string value) : Prop :=
  Forall (fun k => m !! k = Some VNone) snapshot_keys.

(** The seconds a trace spends in [time.sleep]. *)
Definition total_sleep (tr : list Event) : Z :=
  fold_right (fun e acc => match e with EvSleep d => d + acc | _ => acc end)
             0 tr.

(** The event is no call on any cache but [nm] in resource group [rg]. *)
Definition on_resource (rg nm : string) (e : Event) : Prop :=
  match e with
  | EvGet rg' nm' | EvDelete rg' nm' | EvCreate rg' nm' _ =>
      rg' = rg /\ nm' = nm
  | EvPollerResult | EvSleep _ => True
  end.

(** [self.results] as the check-mode create branch leaves it. *)
Definition named_dry_run (self : Params) : gmap string value :=
  <["name" := VStr (name self)]> (reported false present initial_results).

(** The dictionaries a run can return. *)
Definition ok_results (self : Params) (m : gmap string value) : Prop :=
  m = reported true (state self) initial_results \/
  (check_mode self = true /\ state self = present /\ m = named_dry_run self) \/
  (exists c, m = populated c (reported true present initial_results)).

(** [self.results] when a run ends in an exception or in [self.fail]. *)
Definition failed_results (m : gmap string value) : Prop :=
  m = initial_results \/ (exists c, m = populated c initial_results).

(** The outcome of a run and the final [self.results] go together: a run
    returns the dictionary it holds, shaped as one of the three successful
    branches leaves it, and any other ending leaves the initial dictionary,
    with a snapshot copied into it or not. *)
Definition outcome_ok {W} (self : Params) (r : res (gmap string value))
    (s' : St W) : Prop :=
  match r with
  | Ok m => results s' = m /\ ok_results self m
  | _ => failed_results (results s')
  end.

(** The keys [populate_results] assigns. *)
Definition populated_keys : list string :=
  ["id"; "name"; "location"; "tags"; "provisioning_state"; "hostname";
   "redis_version"; "sku"; "enable_nonssl_port"; "accessKeys"].

(** ** The argument-copying loop, lines 252-253 *)

(** The keys of [self.module_arg_spec], lines 191-206. *)
Definition module_arg_spec_keys : list string :=
  ["name"; "state"; "location"; "resource_group_name"; "tags"; "sku_name";
   "sku_family"; "sku_capacity"; "redis_configuration"; "enable_nonssl_port";
   "shard_count"; "subnet_id"; "static_ip"].

(** [for key in keys: setattr(self, key, kwargs[key])] over the attributes
    [attrs] of [self]: the result is the [KeyError] key, if any, and the
    attributes as the loop left them. *)
Fixpoint setattr_loop {V : Type} (keys : list string)
    (kwargs attrs : gmap string V) : option string * gmap string V :=
  match keys with
  | [] => (None, attrs)
  | key :: rest =>
      match kwargs !! key with
      | Some v => setattr_loop rest kwargs (<[key := v]> attrs)
      | None => (Some key, attrs)
      end
  end.

(** [list(self.module_arg_spec.keys()) + ['tags']], with the dictionary's
    keys in the order [order] the interpreter yields them. *)
Definition copy_arguments {V : Type} (order : list string)
    (kwargs attrs : gmap string V) : option string * gmap string V :=
  setattr_loop (order ++ ["tags"]) kwargs attrs.

(** ** The [redis_client] property, lines 356-365 *)

Section ClientProperty.

(** [H] is the type of client objects, [C] of credentials. *)
Context {H C : Type}.
Variable RedisManagementClient : C -> string -> H.
Variable azure_credentials : C.
Variable subscription_id : string.

(** [self._redis_client], the number of clients constructed so far and the
    provider namespaces passed to [self._register], in order. *)
Record ClientAttr : Type := mkClientAttr {
  _redis_client : option H;
  constructed : nat;
  registered : list string
}.

(** [exec_module] resets the attribute (line 259) before any access. *)
Definition client_unset : ClientAttr := mkClientAttr None 0 [].

(** One read of [self.redis_client]; a client object is truthy, [None] is
    not. *)
Definition redis_client (a : ClientAttr) : option H * ClientAttr :=
  let a1 :=
    match _redis_client a with
    | Some _ => a
    | None =>
        mkClientAttr
          (Some (RedisManagementClient azure_credentials subscription_id))
          (S (constructed a)) (registered a)
    end in
  let a2 :=
    mkClientAttr (_redis_client a1) (constructed a1)
                 (registered a1 ++ ["Microsoft.Cache"]) in
  (_redis_client a2, a2).

(** [n] reads in a row, with what each returned. *)
Fixpoint redis_client_reads (n : nat) (a : ClientAttr)
  : list (option H) * ClientAttr :=
  match n with
  | O => ([], a)
  | S n' =>
      let '(h, a1) := redis_client a in
      let '(hs, a2) := redis_client_reads n' a1 in
      (h :: hs, a2)
  end.

End ClientProperty.

(** ** Facts about traces *)

(** Unfolds the straight-line monadic plumbing of a block. *)
Ltac run_monad :=
  unfold log, sleep;
  unfold bind, ret, fail, raise, set_result, get_results, get_to_update,
    set_to_update, set_redis_cache, get_redis_cache, emit;
  cbn [redis_cache to_update results world calls negb fst snd].

Lemma count_calls_app p (a b : list Event) :
  count_calls p (a ++ b) = (count_calls p a + count_calls p b)%nat.
Proof. unfold count_calls. now rewrite List.filter_app, length_app. Qed.

Lemma count_get_polls rg nm n : count_calls is_get (polls rg nm n) = n.
Proof.
  induction n as [|n IH]; [reflexivity|].
  cbn [polls]. unfold count_calls in *. cbn. now rewrite IH.
Qed.

Lemma count_mutating_polls rg nm n :
  count_calls is_mutating (polls rg nm n) = 0%nat.
Proof.
  induction n as [|n IH]; [reflexivity|].
  cbn [polls]. unfold count_calls in *. cbn. exact IH.
Qed.

Lemma created_with_polls rg nm n : created_with (polls rg nm n) = [].
Proof. induction n as [|n IH]; [reflexivity|]. cbn. exact IH. Qed.


(** ** The wait loop *)

Section WaitLoop.

Context {W : Type}.
Variable client : RedisClient W.
Variable self : Params.

Let rg := resource_group_name self.
Let nm := name self.

(** One evaluation of the loop condition and, when it holds, of the body. *)
Lemma wait_loop_unfold fuel count (s : St W) c :
  redis_cache s = Some c ->
  wait_loop client self (S fuel) 10 count s =
    if succeeded c then Some (Ok true, s)
    else
      let '(r, w') := redis_get client rg nm (world s) in
      let tr := calls s ++ polls rg nm 1 in
      match r with
      | Returns r =>
          let s' := mkSt (Some r) (to_update s) (results s) w' tr in
          if count + 1 =? 180 then Some (Ok false, s')
          else wait_loop client self fuel 10 (count + 1) s'
      | Raises e =>
          Some (Raise e, mkSt (Some c) (to_update s) (results s) w' tr)
      end.
Proof.
  intros Hc. cbn [wait_loop polls].
  unfold bind at 1. unfold cache_attr at 1. unfold bind at 1.
  unfold get_redis_cache. rewrite Hc. unfold ret at 1.
  destruct (succeeded c); cbn [negb]; [reflexivity|].
  unfold bind, log, sleep, emit, ret, get, rpc, set_redis_cache.
  cbn [redis_cache to_update results world calls].
  fold rg nm.
  destruct (redis_get client rg nm (world s)) as [[r|e] w'];
    cbn; rewrite <- !app_assoc; cbn; [|now rewrite Hc].
  destruct (count + 1 =? 180); reflexivity.
Qed.

Lemma wait_loop_no_cache fuel count (s : St W) :
  redis_cache s = None ->
  wait_loop client self (S fuel) 10 count s =
    Some (Raise (PyException "AttributeError"), s).
Proof.
  intros Hc. cbn [wait_loop].
  unfold bind at 1. unfold cache_attr at 1. unfold bind at 1.
  unfold get_redis_cache. now rewrite Hc.
Qed.

Lemma polled_0 (s : St W) : polled client self s s 0.
Proof. unfold polled. cbn. now rewrite app_nil_r. Qed.

Lemma polled_S (s s1 s' : St W) n :
  polled client self s s1 1 -> polled client self s1 s' n -> polled client self s s' (S n).
Proof.
  intros (Hc1 & Hr1 & Hu1 & Hw1) (Hc & Hr & Hu & Hw). unfold polled.
  rewrite Hc, Hc1, Hr, Hr1, Hu, Hu1, Hw, Hw1, <- app_assoc.
  repeat split; reflexivity.
Qed.

(** The loop always comes to an end, after at most [180 - count] rounds. *)
Lemma wait_loop_total fuel : forall count (s : St W),
  count < 180 ->
  180 - count <= Z.of_nat fuel ->
  exists r s' n,
    wait_loop client self fuel 10 count s = Some (r, s') /\
    Z.of_nat n <= 180 - count /\
    polled client self s s' n /\
    (forall msg, r <> FailJson msg) /\
    (is_Some (redis_cache s) -> is_Some (redis_cache s')) /\
    (forall c, redis_cache s = Some c -> succeeded c = true ->
               r = Ok true /\ s' = s).
Proof.
  induction fuel as [|fuel IH]; intros count s Hlt Hfuel; [lia|].
  destruct (redis_cache s) as [c|] eqn:Hc.
  2:{ rewrite wait_loop_no_cache by exact Hc.
      exists (Raise (PyException "AttributeError")), s, 0%nat.
      repeat split; try lia; try apply polled_0; try discriminate.
      rewrite Hc. intros [? ?]; discriminate. }
  rewrite (wait_loop_unfold fuel count s c Hc).
  destruct (succeeded c) eqn:Hs.
  { exists (Ok true), s, 0%nat.
    repeat split; try lia; try apply polled_0; try discriminate.
    rewrite Hc; eauto. }
  destruct (redis_get client rg nm (world s)) as [[r|e] w'] eqn:Hg; cbn zeta.
  - assert (Hp1 : polled client self s (mkSt (Some r) (to_update s) (results s) w'
                                  (calls s ++ polls rg nm 1)) 1).
    { unfold polled. cbn. fold rg nm. rewrite Hg. repeat split. }
    destruct (count + 1 =? 180) eqn:E.
    + eexists (Ok false), _, 1%nat.
      repeat split; try lia; try apply Hp1; try discriminate;
        try (cbn; eauto); congruence.
    + apply Z.eqb_neq in E.
      destruct (IH (count + 1)
                   (mkSt (Some r) (to_update s) (results s) w'
                         (calls s ++ polls rg nm 1)))
        as (r' & s' & n & Hrun & Hn & Hp & Hnf & Hsome & _); try lia.
      exists r', s', (S n). rewrite Hrun.
      repeat split; try lia; try (eapply polled_S; eassumption);
        try exact Hnf; try congruence.
      intros _. apply Hsome. cbn. eauto.
  - eexists (Raise e), _, 1%nat.
    repeat split; try lia; try discriminate; try (cbn; eauto);
      try congruence.
    cbn. fold rg nm. now rewrite Hg.
Qed.

(** [K] unsuccessful polls, then a successful one, with room to spare. *)
Lemma wait_loop_succeeds K : forall fuel count (s : St W) c r,
  redis_cache s = Some c ->
  succeeded c = false ->
  (K + 1 < fuel)%nat ->
  count + Z.of_nat K + 1 < 180 ->
  (forall i, (i < K)%nat ->
     exists ri, nth_get client self i (world s) = Returns ri /\
                succeeded ri = false) ->
  nth_get client self K (world s) = Returns r ->
  succeeded r = true ->
  wait_loop client self fuel 10 count s =
    Some (Ok true,
          mkSt (Some r) (to_update s) (results s)
               (world_after_gets client self (S K) (world s))
               (calls s ++ polls rg nm (S K))).
Proof.
  induction K as [|K IH]; intros fuel count s c r Hc Hs Hfuel Hcount Hrun HK Hr.
  - destruct fuel as [|[|fuel]]; try lia.
    rewrite (wait_loop_unfold _ count s c Hc), Hs.
    unfold nth_get in HK. cbn in HK. fold rg nm in HK.
    cbn [world_after_gets]. fold rg nm.
    destruct (redis_get client rg nm (world s)) as [r0 w'].
    cbn in HK. subst r0. cbn zeta.
    destruct (count + 1 =? 180) eqn:E; [apply Z.eqb_eq in E; lia|].
    rewrite (wait_loop_unfold _ _ (mkSt (Some r) _ _ _ _) r eq_refl), Hr.
    reflexivity.
  - destruct fuel as [|fuel]; try lia.
    rewrite (wait_loop_unfold _ count s c Hc), Hs.
    destruct (Hrun 0%nat ltac:(lia)) as (r0 & H0 & Hs0).
    unfold nth_get in H0. cbn in H0. fold rg nm in H0.
    assert (Hnext : forall i w,
              nth_get client self (S i) w =
              nth_get client self i (snd (redis_get client rg nm w)))
      by reflexivity.
    rewrite Hnext in HK.
    assert (Hrun' : forall i, (i < K)%nat ->
              exists ri,
                nth_get client self i
                  (snd (redis_get client rg nm (world s))) = Returns ri /\
                succeeded ri = false).
    { intros i Hi. rewrite <- Hnext. apply Hrun. lia. }
    change (world_after_gets client self (S (S K)) (world s))
      with (world_after_gets client self (S K)
              (snd (redis_get client rg nm (world s)))).
    destruct (redis_get client rg nm (world s)) as [r1 w'].
    cbn in H0, HK, Hrun' |- *. subst r1.
    destruct (count + 1 =? 180) eqn:E; [apply Z.eqb_eq in E; lia|].
    erewrite (IH fuel (count + 1) _ r0 r);
      [ cbn; now rewrite <- app_assoc | reflexivity | exact Hs0 | lia | lia
      | exact Hrun' | exact HK | exact Hr ].
Qed.

(** [n] unsuccessful polls that bring the counter to 180. *)
Lemma wait_loop_times_out n : forall fuel count (s : St W) c,
  redis_cache s = Some c ->
  succeeded c = false ->
  (0 < n <= fuel)%nat ->
  count + Z.of_nat n = 180 ->
  (forall i, (i < n)%nat ->
     exists ri, nth_get client self i (world s) = Returns ri /\
                succeeded ri = false) ->
  exists s',
    wait_loop client self fuel 10 count s = Some (Ok false, s') /\
    polled client self s s' n /\
    is_Some (redis_cache s').
Proof.
  induction n as [|n IH]; intros fuel count s c Hc Hs Hfuel Hcount Hrun;
    [lia|].
  destruct fuel as [|fuel]; try lia.
  rewrite (wait_loop_unfold _ count s c Hc), Hs.
  destruct (Hrun 0%nat ltac:(lia)) as (r0 & H0 & Hs0).
  unfold nth_get in H0. cbn in H0. fold rg nm in H0.
  assert (Hnext : forall i w,
            nth_get client self (S i) w =
            nth_get client self i (snd (redis_get client rg nm w)))
    by reflexivity.
  assert (Hrun' : forall i, (i < n)%nat ->
            exists ri,
              nth_get client self i
                (snd (redis_get client rg nm (world s))) = Returns ri /\
              succeeded ri = false).
  { intros i Hi. rewrite <- Hnext. apply Hrun. lia. }
  assert (Hp1 : forall u,
            polled client self s (mkSt u (to_update s) (results s)
                           (snd (redis_get client rg nm (world s)))
                           (calls s ++ polls rg nm 1)) 1).
  { intros u. unfold polled. cbn. repeat split. }
  destruct (redis_get client rg nm (world s)) as [r1 w'].
  cbn in H0, Hrun', Hp1 |- *. subst r1.
  destruct (count + 1 =? 180) eqn:E.
  - apply Z.eqb_eq in E. assert (n = 0%nat) by lia. subst n.
    eexists. split; [reflexivity|]. split; [apply Hp1|]. cbn. eauto.
  - apply Z.eqb_neq in E.
    destruct (IH fuel (count + 1)
                 (mkSt (Some r0) (to_update s) (results s) w'
                       (calls s ++ [EvSleep 10; EvGet rg nm])) r0)
      as (s' & Hrun2 & Hp & Hsome); cbn; auto; try lia.
    exists s'. split; [exact Hrun2|]. split; [|exact Hsome].
    eapply polled_S; [apply Hp1|exact Hp].
Qed.

End WaitLoop.

(** ** The blocks of [exec_module] *)

Section Blocks.

Context {W : Type}.
Variable client : RedisClient W.
Variable self : Params.

Let rg := resource_group_name self.
Let nm := name self.

Lemma check_resource_created_eq fuel (s : St W) :
  check_resource_created client self fuel s = wait_loop client self fuel 10 0 s.
Proof.
  unfold check_resource_created, try_except_Exception.
  destruct (wait_loop client self fuel 10 0 s) as [[[b|e|msg] s']|];
    reflexivity.
Qed.

Lemma populate_results_some (s : St W) r :
  redis_cache s = Some r ->
  populate_results s =
    Some (Ok tt, mkSt (Some r) (to_update s) (populated r (results s))
                      (world s) (calls s)).
Proof.
  destruct s as [c u m w tr]. cbn. intros ->. reflexivity.
Qed.

Lemma populate_results_none (s : St W) :
  redis_cache s = None ->
  populate_results s = Some (Raise (PyException "AttributeError"), s).
Proof.
  destruct s as [c u m w tr]. cbn. intros ->. reflexivity.
Qed.

Lemma exec_module_found fuel w r w1 :
  redis_get client rg nm w = (Returns r, w1) ->
  exec_module client self fuel (init w) =
    if check_mode self then
      let s := fetched self r w1 in
      Some (Ok (reported true (state self) initial_results),
            mkSt (redis_cache s) (to_update s)
                 (reported true (state self) initial_results)
                 (world s) (calls s))
    else
      match state self with
      | absent => delete_block client self (fetched self r w1)
      | present => update_block client self (fetched self r w1)
      end.
Proof.
  intros Hg. unfold exec_module, apply_block.
  unfold bind at 1. unfold log at 1. unfold ret at 1.
  unfold bind at 1. unfold try_except_CloudError at 1.
  unfold bind at 1. unfold get, rpc. fold rg nm. cbn [world init].
  rewrite Hg. run_monad.
  destruct (check_mode self), (state self); reflexivity.
Qed.

Lemma exec_module_cloud_error fuel w code msg w1 :
  redis_get client rg nm w = (Raises (CloudError code msg), w1) ->
  exec_module client self fuel (init w) =
    if check_mode self && State_eqb (state self) present then
      let m := <["name" := VStr (name self)]>
                 (reported false present initial_results) in
      Some (Ok m, mkSt None false m w1 [EvGet rg nm])
    else create_block client self fuel (missing self w1).
Proof.
  intros Hg. unfold exec_module, apply_block.
  unfold bind at 1. unfold log at 1. unfold ret at 1.
  unfold bind at 1. unfold try_except_CloudError at 1.
  unfold bind at 1. unfold get, rpc. fold rg nm. cbn [world init].
  rewrite Hg. cbn [is_CloudError]. run_monad.
  destruct (check_mode self), (state self); reflexivity.
Qed.

Lemma exec_module_exception fuel w msg w1 :
  redis_get client rg nm w = (Raises (PyException msg), w1) ->
  exec_module client self fuel (init w) =
    Some (Raise (PyException msg), missing self w1).
Proof.
  intros Hg. unfold exec_module.
  unfold bind at 1. unfold log at 1. unfold ret at 1.
  unfold bind at 1. unfold try_except_CloudError at 1.
  unfold bind at 1. unfold get, rpc. fold rg nm. cbn [world init].
  rewrite Hg. reflexivity.
Qed.

Lemma delete_block_eq (s : St W) :
  delete_block client self s =
    let '(d, w1) := redis_delete client rg nm (world s) in
    match d with
    | Raises e =>
        Some (surfaced e,
              mkSt (redis_cache s) (to_update s) (results s) w1
                   (calls s ++ [EvDelete rg nm]))
    | Returns _ =>
        let '(p, w2) := poller_result client w1 in
        let tr := calls s ++ [EvDelete rg nm; EvPollerResult] in
        match p with
        | Raises e =>
            Some (surfaced e,
                  mkSt (redis_cache s) (to_update s) (results s) w2 tr)
        | Returns _ =>
            let m := reported true absent (results s) in
            Some (Ok m, mkSt (redis_cache s) (to_update s) m w2 tr)
        end
    end.
Proof.
  unfold delete_block, try_except_CloudError, delete_, get_poller_result, rpc.
  fold rg nm. run_monad.
  destruct (redis_delete client rg nm (world s)) as [[[]|e] w1];
    cbn [redis_cache to_update results world calls].
  - destruct (poller_result client w1) as [[[]|e] w2];
      cbn [redis_cache to_update results world calls];
      rewrite <- app_assoc; [reflexivity|].
    destruct e; reflexivity.
  - destruct e; reflexivity.
Qed.

Lemma update_block_eq (s : St W) :
  update_block client self s =
    let '(c, w1) :=
      redis_create client rg nm (create_parameters self) (world s) in
    let tr := calls s ++ [EvCreate rg nm (create_parameters self)] in
    match c with
    | Raises e =>
        Some (surfaced e,
              mkSt (redis_cache s) (to_update s) (results s) w1 tr)
    | Returns r =>
        let m := populated r (reported true present (results s)) in
        Some (Ok m, mkSt (Some r) (to_update s) m w1 tr)
    end.
Proof.
  unfold update_block, try_except_CloudError, create, rpc.
  fold rg nm. run_monad.
  destruct (redis_create client rg nm (create_parameters self) (world s))
    as [[r|e] w1].
  - cbn [redis_cache to_update results world calls].
    erewrite populate_results_some by reflexivity. reflexivity.
  - destruct e; reflexivity.
Qed.

Lemma create_block_eq fuel (s : St W) :
  create_block client self fuel s =
    let '(c, w1) :=
      redis_create client rg nm (create_parameters self) (world s) in
    let tr := calls s ++ [EvCreate rg nm (create_parameters self)] in
    match c with
    | Raises e =>
        Some (surfaced e,
              mkSt (redis_cache s) (to_update s) (results s) w1 tr)
    | Returns r =>
        match wait_loop client self fuel 10 0
                (mkSt (Some r) (to_update s) (results s) w1 tr) with
        | None => None
        | Some (Raise e, s') => Some (surfaced e, s')
        | Some (FailJson msg, s') => Some (FailJson msg, s')
        | Some (Ok false, s') =>
            match populate_results s' with
            | Some (Ok _, s'') => Some (FailJson waited_too_long, s'')
            | Some (Raise e, s'') => Some (surfaced e, s'')
            | Some (FailJson msg, s'') => Some (FailJson msg, s'')
            | None => None
            end
        | Some (Ok true, s') =>
            match redis_cache s' with
            | Some r' =>
                let m := populated r' (reported true present (results s')) in
                Some (Ok m, mkSt (Some r') (to_update s') m
                                 (world s') (calls s'))
            | None =>
                Some (Raise (PyException "AttributeError"),
                      mkSt None (to_update s')
                           (reported true present (results s'))
                           (world s') (calls s'))
            end
        end
    end.
Proof.
  unfold create_block.
  unfold bind at 1. unfold try_except_CloudError at 1.
  unfold bind at 1. unfold create, rpc. fold rg nm.
  destruct (redis_create client rg nm (create_parameters self) (world s))
    as [[r|e] w1]; [|destruct e; reflexivity].
  unfold bind at 1. unfold set_redis_cache at 1.
  cbn [redis_cache to_update results world calls].
  unfold bind at 1. rewrite check_resource_created_eq.
  destruct (wait_loop client self fuel 10 0 _) as [[[[|]|e|msg] s']|];
    cbn [negb]; try reflexivity.
  - unfold bind at 1. unfold ret at 1. unfold bind at 1. unfold log at 1.
    unfold ret at 1. run_monad.
    destruct (redis_cache s') as [r'|] eqn:Hc.
    + erewrite populate_results_some by reflexivity. reflexivity.
    + rewrite populate_results_none by reflexivity. reflexivity.
  - unfold bind at 1. unfold bind at 1.
    destruct (populate_results s') as [[[[]|e|msg] s'']|];
      try reflexivity.
    destruct e; reflexivity.
  - destruct e; reflexivity.
Qed.

End Blocks.

(** ** The trace of a whole run *)

Section Runs.

Context {W : Type}.
Variable client : RedisClient W.
Variable self : Params.

Let rg := resource_group_name self.
Let nm := name self.

Lemma delete_block_calls (s : St W) :
  exists r s',
    delete_block client self s = Some (r, s') /\
    (calls s' = calls s ++ [EvDelete rg nm] \/
     calls s' = calls s ++ [EvDelete rg nm; EvPollerResult]).
Proof.
  rewrite delete_block_eq. fold rg nm.
  destruct (redis_delete client rg nm (world s)) as [[[]|e] w1]; eauto.
  destruct (poller_result client w1) as [[[]|e] w2]; eauto.
Qed.

Lemma update_block_calls (s : St W) :
  exists r s',
    update_block client self s = Some (r, s') /\
    calls s' = calls s ++ [EvCreate rg nm (create_parameters self)].
Proof.
  rewrite update_block_eq. fold rg nm.
  destruct (redis_create client rg nm (create_parameters self) (world s))
    as [[r|e] w1]; eauto.
Qed.

Lemma create_block_calls fuel (s : St W) :
  (180 <= fuel)%nat ->
  exists r s' n,
    create_block client self fuel s = Some (r, s') /\
    (n <= 180)%nat /\
    calls s' =
      calls s ++ EvCreate rg nm (create_parameters self) :: polls rg nm n.
Proof.
  intros Hfuel. rewrite create_block_eq. fold rg nm.
  destruct (redis_create client rg nm (create_parameters self) (world s))
    as [[r|e] w1]; cbn zeta.
  2:{ exists (surfaced e). eexists. exists 0%nat.
      split; [reflexivity|]. split; [lia|reflexivity]. }
  destruct (wait_loop_total client self fuel 0
              (mkSt (Some r) (to_update s) (results s) w1
                    (calls s ++ [EvCreate rg nm (create_parameters self)])))
    as (r' & s' & n & Hrun & Hn & (Hcalls & _) & _ & Hsome & _);
    try lia.
  fold rg nm in Hcalls. cbn [calls] in Hcalls.
  rewrite <- app_assoc in Hcalls. cbn [app] in Hcalls.
  destruct (Hsome ltac:(cbn; eauto)) as [c' Hc'].
  rewrite Hrun.
  destruct r' as [[|]|e|msg].
  - rewrite Hc'. eexists. eexists. exists n.
    split; [reflexivity|]. split; [lia|exact Hcalls].
  - rewrite (populate_results_some s' c' Hc').
    eexists. eexists. exists n.
    split; [reflexivity|]. split; [lia|exact Hcalls].
  - eexists. eexists. exists n.
    split; [reflexivity|]. split; [lia|exact Hcalls].
  - eexists. eexists. exists n.
    split; [reflexivity|]. split; [lia|exact Hcalls].
Qed.

(** Every run comes to an end and leaves one of the four traces. *)
Lemma run_leaves_trace fuel (w : W) :
  (180 <= fuel)%nat ->
  exists r s',
    run client self fuel w = Some (r, s') /\ run_trace self (calls s').
Proof.
  intros Hfuel. unfold run.
  destruct (redis_get client rg nm w) as [[r|[code msg|msg]] w1] eqn:Hg.
  - rewrite (exec_module_found client self fuel w r w1 Hg).
    destruct (check_mode self).
    + eexists. eexists. split; [reflexivity|]. apply trace_fetch.
    + destruct (state self).
      * destruct (update_block_calls (fetched self r w1))
          as (r' & s' & -> & Hcalls).
        exists r', s'. split; [reflexivity|]. rewrite Hcalls.
        apply (trace_create self 0). lia.
      * destruct (delete_block_calls (fetched self r w1))
          as (r' & s' & -> & [Hcalls | Hcalls]);
          exists r', s'; (split; [reflexivity|]); rewrite Hcalls;
            [apply trace_delete | apply trace_delete_awaited].
  - rewrite (exec_module_cloud_error client self fuel w code msg w1 Hg).
    destruct (check_mode self && State_eqb (state self) present).
    + eexists. eexists. split; [reflexivity|]. apply trace_fetch.
    + destruct (create_block_calls fuel (missing self w1) Hfuel)
        as (r' & s' & n & -> & Hn & Hcalls).
      exists r', s'. split; [reflexivity|]. rewrite Hcalls.
      now apply trace_create.
  - rewrite (exec_module_exception client self fuel w msg w1 Hg).
    eexists. eexists. split; [reflexivity|]. apply trace_fetch.
Qed.

End Runs.

Lemma run_trace_mutating self tr :
  run_trace self tr -> (count_calls is_mutating tr <= 1)%nat.
Proof.
  intros [| | |n Hn]; try (cbn; lia).
  change (count_calls is_mutating
            ([EvGet (resource_group_name self) (name self);
              EvCreate (resource_group_name self) (name self)
                       (create_parameters self)]
             ++ polls (resource_group_name self) (name self) n) <= 1)%nat.
  rewrite count_calls_app, count_mutating_polls. cbn. lia.
Qed.

Lemma run_trace_created_with self tr :
  run_trace self tr ->
  Forall (fun p => p = create_parameters self) (created_with tr).
Proof.
  intros [| | |n Hn]; cbn; try constructor.
  - reflexivity.
  - rewrite created_with_polls. constructor.
Qed.

(** ** Properties of the reconciliation *)


Lemma waited_too_long_is_not_failed_with e : waited_too_long <> failed_with e.
Proof. unfold waited_too_long, failed_with. cbn. discriminate. Qed.

(** C7: whatever the desired spec, the dry-run flag and the provider's
    behaviour, an invocation comes to an end having issued at most one
    mutating call (create or delete). *)
Theorem at_most_one_mutating_call {W} (client : RedisClient W)
    (self : Params) (fuel : nat) (w : W) :
  (180 <= fuel)%nat ->
  exists r s',
    run client self fuel w = Some (r, s') /\
    (count_calls is_mutating (calls s') <= 1)%nat.
Proof.
  intros Hfuel.
  destruct (run_leaves_trace client self fuel w Hfuel) as (r & s' & Hrun & Htr).
  exists r, s'. split; [exact Hrun|].
  now apply (run_trace_mutating self).
Qed.

Lemma at_most_one_mutating_call_witness :
  (180 <= 180)%nat /\
  exists r s',
    run (Mock.scripted (Mock.first_then (Raises Mock.not_found)
                          (Mock.running_then_succeeded 3))
           (Returns (Mock.cache "Running")) (Returns tt) (Returns tt))
        (Mock.desired present false) 180 0%nat = Some (r, s') /\
    (count_calls is_mutating (calls s') <= 1)%nat.
Proof.
  split; [apply le_n|].
  apply at_most_one_mutating_call. apply le_n.
Defined.

Lemma nth_get_scripted gets created deleted polled self n w :
  nth_get (Mock.scripted gets created deleted polled) self n w
  = gets (n + w)%nat.
Proof.
  unfold nth_get. revert w.
  induction n as [|n IH]; intros w; [reflexivity|].
  cbn [world_after_gets]. rewrite IH. cbn. f_equal. lia.
Qed.

(** C10: whatever the provider replies, the provisioning wait comes to an
    end after at most 180 [get] calls; when the cache object on entry (the
    result of the create call) is already [Succeeded] it returns at once,
    with no [get] at all. *)
Theorem wait_terminates_within_180_gets {W} (client : RedisClient W)
    (self : Params) (fuel : nat) (s : St W) :
  (180 <= fuel)%nat ->
  (exists r s' n,
     check_resource_created client self fuel s = Some (r, s') /\
     (n <= 180)%nat /\
     calls s' = calls s ++ polls (resource_group_name self) (name self) n /\
     count_calls is_get (calls s') = (count_calls is_get (calls s) + n)%nat) /\
  (forall c, redis_cache s = Some c -> succeeded c = true ->
     check_resource_created client self fuel s = Some (Ok true, s)) /\
  (forall r w1,
     redis_create client (resource_group_name self) (name self)
       (create_parameters self) (world s) = (Returns r, w1) ->
     succeeded r = true ->
     exists m s',
       create_block client self fuel s = Some (Ok m, s') /\
       calls s' = calls s ++ [EvCreate (resource_group_name self) (name self)
                                       (create_parameters self)]).
Proof.
  intros Hfuel. split; [|split].
  - rewrite check_resource_created_eq.
    destruct (wait_loop_total client self fuel 0 s)
      as (r & s' & n & Hrun & Hn & (Hcalls & _) & _); try lia.
    exists r, s', n. split; [exact Hrun|]. split; [lia|].
    split; [exact Hcalls|].
    now rewrite Hcalls, count_calls_app, count_get_polls.
  - intros c Hc Hs. rewrite check_resource_created_eq.
    destruct (wait_loop_total client self fuel 0 s)
      as (r & s' & n & Hrun & _ & _ & _ & _ & Hdone); try lia.
    destruct (Hdone c Hc Hs) as [-> ->]. exact Hrun.
  - intros r w1 Hcreate Hs. rewrite create_block_eq, Hcreate. cbn zeta.
    destruct (wait_loop_total client self fuel 0
                (mkSt (Some r) (to_update s) (results s) w1
                   (calls s ++ [EvCreate (resource_group_name self)
                                  (name self) (create_parameters self)])))
      as (r' & s' & n & Hrun & _ & _ & _ & _ & Hdone); try lia.
    destruct (Hdone r eq_refl Hs) as [-> ->]. rewrite Hrun.
    cbn [redis_cache calls]. eauto.
Qed.

Lemma wait_terminates_within_180_gets_witness :
  let client :=
    Mock.scripted (Mock.running_then_succeeded 3)
      (Returns (Mock.cache "Running")) (Returns tt) (Returns tt) in
  let self := Mock.desired present false in
  let s := Mock.created (Mock.cache "Running") in
  (180 <= 180)%nat /\
  ((exists r s' n,
      check_resource_created client self 180 s = Some (r, s') /\
      (n <= 180)%nat /\
      calls s' = calls s ++ polls (resource_group_name self) (name self) n /\
      count_calls is_get (calls s')
      = (count_calls is_get (calls s) + n)%nat) /\
   (forall c, redis_cache s = Some c -> succeeded c = true ->
      check_resource_created client self 180 s = Some (Ok true, s)) /\
   (forall r w1,
      redis_create client (resource_group_name self) (name self)
        (create_parameters self) (world s) = (Returns r, w1) ->
      succeeded r = true ->
      exists m s',
        create_block client self 180 s = Some (Ok m, s') /\
        calls s' = calls s ++ [EvCreate (resource_group_name self)
                                 (name self) (create_parameters self)])).
Proof.
  intros client self s. split; [apply le_n|].
  apply (wait_terminates_within_180_gets client self 180 s). apply le_n.
Defined.

(** C5, as amended: when the create call returns a cache that is not yet
    [Succeeded] and every [get] made during the wait (the first 180 the
    provider answers after the create) returns a cache that is not
    [Succeeded] either, the wait gives up after exactly 180 polls, and the
    module fails with the message "Waited too long, resource might be
    created", which no failure reported for a provider error carries. *)
Theorem wait_times_out_after_180_polls {W} (client : RedisClient W)
    (self : Params) (fuel : nat) (s : St W) (r0 : RedisResource) (w1 : W) :
  (180 <= fuel)%nat ->
  redis_create client (resource_group_name self) (name self)
    (create_parameters self) (world s) = (Returns r0, w1) ->
  succeeded r0 = false ->
  (forall i, (i < 180)%nat ->
     exists ri,
       nth_get client self i w1 = Returns ri /\ succeeded ri = false) ->
  let entry :=
    mkSt (Some r0) (to_update s) (results s) w1
      (calls s ++ [EvCreate (resource_group_name self) (name self)
                     (create_parameters self)]) in
  exists s1 s',
    check_resource_created client self fuel entry = Some (Ok false, s1) /\
    calls s1 = calls entry
               ++ polls (resource_group_name self) (name self) 180 /\
    count_calls is_get (polls (resource_group_name self) (name self) 180)
    = 180%nat /\
    create_block client self fuel s = Some (FailJson waited_too_long, s') /\
    calls s' = calls s1 /\
    (forall e, waited_too_long <> failed_with e).
Proof.
  intros Hfuel Hcreate Hs0 Hgets entry.
  destruct (wait_loop_times_out client self 180 fuel 0 entry r0)
    as (s1 & Hrun & (Hcalls & _) & [c1 Hc1]); auto; try lia.
  exists s1. eexists.
  rewrite check_resource_created_eq.
  split; [exact Hrun|]. split; [exact Hcalls|].
  split; [apply count_get_polls|].
  rewrite create_block_eq, Hcreate. cbn zeta. fold entry. rewrite Hrun.
  rewrite (populate_results_some s1 c1 Hc1).
  split; [reflexivity|]. split; [reflexivity|].
  apply waited_too_long_is_not_failed_with.
Qed.

Lemma wait_times_out_after_180_polls_witness :
  let client :=
    Mock.scripted (Mock.running_then_succeeded 181)
      (Returns (Mock.cache "Creating")) (Returns tt) (Returns tt) in
  let self := Mock.desired present false in
  let s := missing self 1%nat in
  let entry :=
    mkSt (Some (Mock.cache "Creating")) (to_update s) (results s) 1%nat
      (calls s ++ [EvCreate (resource_group_name self) (name self)
                     (create_parameters self)]) in
  (180 <= 180)%nat /\
  redis_create client (resource_group_name self) (name self)
    (create_parameters self) (world s)
  = (Returns (Mock.cache "Creating"), 1%nat) /\
  succeeded (Mock.cache "Creating") = false /\
  (forall i, (i < 180)%nat ->
     exists ri,
       nth_get client self i 1%nat = Returns ri /\ succeeded ri = false) /\
  exists s1 s',
    check_resource_created client self 180 entry = Some (Ok false, s1) /\
    calls s1 = calls entry
               ++ polls (resource_group_name self) (name self) 180 /\
    count_calls is_get (polls (resource_group_name self) (name self) 180)
    = 180%nat /\
    create_block client self 180 s = Some (FailJson waited_too_long, s') /\
    calls s' = calls s1 /\
    (forall e, waited_too_long <> failed_with e).
Proof.
  intros client self s entry.
  assert (Hgets : forall i, (i < 180)%nat ->
            exists ri,
              nth_get client self i 1%nat = Returns ri /\
              succeeded ri = false).
  { intros i Hi. exists (Mock.cache "Running").
    unfold client. rewrite nth_get_scripted.
    unfold Mock.running_then_succeeded.
    destruct (Nat.ltb_spec (i + 1) 181) as [_|Hge]; [|lia].
    split; reflexivity. }
  split; [apply le_n|]. split; [reflexivity|]. split; [reflexivity|].
  split; [exact Hgets|].
  exact (wait_times_out_after_180_polls client self 180 s
           (Mock.cache "Creating") 1%nat (le_n 180) eq_refl eq_refl Hgets).
Defined.

(** C5 as stated does not hold: here every [get] the provider would answer
    during the wait reports "Running", yet the create call itself returned a
    cache that is "Succeeded", so the wait returns successfully without a
    single poll and the run ends well after the fetch and the create. *)
Lemma wait_skipped_when_create_succeeded :
  let client :=
    Mock.scripted
      (Mock.first_then (Raises Mock.not_found)
         (Mock.always (Returns (Mock.cache "Running"))))
      (Returns (Mock.cache "Succeeded")) (Returns tt) (Returns tt) in
  let self := Mock.desired present false in
  let entry :=
    mkSt (Some (Mock.cache "Succeeded")) false initial_results 1%nat
      [EvGet "rg1" "cache1"; EvCreate "rg1" "cache1" (create_parameters self)]
  in
  (forall i, nth_get client self i 1%nat = Returns (Mock.cache "Running")) /\
  check_resource_created client self 180 entry = Some (Ok true, entry) /\
  ~ (exists s', check_resource_created client self 180 entry
                = Some (Ok false, s')) /\
  match run client self 180 0%nat with
  | Some (Ok m, s') =>
      m !! "changed" = Some (VBool true) /\
      calls s' = calls entry /\
      count_calls is_get (calls s') = 1%nat
  | _ => False
  end.
Proof.
  intros client self entry.
  assert (Hwait : check_resource_created client self 180 entry
                  = Some (Ok true, entry)) by (vm_compute; reflexivity).
  split; [|split; [exact Hwait|split]].
  - intros i. unfold client. rewrite nth_get_scripted.
    replace (i + 1)%nat with (S i) by lia. reflexivity.
  - intros [s' Hs']. rewrite Hwait in Hs'. discriminate.
  - vm_compute. repeat split; reflexivity.
Qed.



(** ** Where the module departs from the reconciliation it is meant to do *)

(** With [state = absent] the check-mode block returns only when the cache
    was found, and so does the delete block: a fetch that raised a
    [CloudError] always falls through to the create block. *)
Lemma absent_missing_falls_through {W} (client : RedisClient W)
    (self : Params) (fuel : nat) (w : W) code msg w1 :
  state self = absent ->
  redis_get client (resource_group_name self) (name self) w
  = (Raises (CloudError code msg), w1) ->
  run client self fuel w = create_block client self fuel (missing self w1).
Proof.
  intros Hstate Hget. unfold run.
  rewrite (exec_module_cloud_error client self fuel w code msg w1 Hget), Hstate.
  now rewrite andb_false_r.
Qed.

(** C1: desired = absent, remote = not found.  The claim wants no mutating
    call and [changed = False]; the module creates the cache, polls it and
    reports [changed = True], [state = 'present']. *)
Theorem absent_not_found_issues_create :
  let client :=
    Mock.scripted
      (Mock.first_then (Raises Mock.not_found)
         (Mock.always (Returns (Mock.cache "Succeeded"))))
      (Returns (Mock.cache "Running")) (Returns tt) (Returns tt) in
  let self := Mock.desired absent false in
  match run client self 180 0%nat with
  | Some (Ok m, s') =>
      m !! "changed" = Some (VBool true) /\
      m !! "state" = Some (VStr "present") /\
      calls s' = [EvGet "rg1" "cache1";
                  EvCreate "rg1" "cache1" (create_parameters self);
                  EvSleep 10; EvGet "rg1" "cache1"] /\
      count_calls is_mutating (calls s') = 1%nat
  | _ => False
  end.
Proof. vm_compute. repeat split; reflexivity. Qed.

(** C2: check mode.  With desired = present and remote = not found it
    reports [changed = False] where the real run reports [changed = True];
    with desired = absent and remote = not found it leaves the check-mode
    block and issues the create call. *)
Theorem check_mode_diverges_from_real_run :
  let client :=
    Mock.scripted
      (Mock.first_then (Raises Mock.not_found)
         (Mock.always (Returns (Mock.cache "Succeeded"))))
      (Returns (Mock.cache "Succeeded")) (Returns tt) (Returns tt) in
  match run client (Mock.desired present true) 180 0%nat,
        run client (Mock.desired present false) 180 0%nat with
  | Some (Ok dry, s_dry), Some (Ok real, s_real) =>
      dry !! "changed" = Some (VBool false) /\
      real !! "changed" = Some (VBool true) /\
      count_calls is_mutating (calls s_dry) = 0%nat
  | _, _ => False
  end /\
  match run client (Mock.desired absent true) 180 0%nat with
  | Some (_, s_dry) => count_calls is_create (calls s_dry) = 1%nat
  | None => False
  end.
Proof. vm_compute. repeat split; reflexivity. Qed.

(** Every create call of every run carries [create_parameters], in which
    [redis_configuration], [enable_non_ssl_port], [shard_count],
    [subnet_id] and [static_ip] are [None]. *)
Lemma every_create_carries_create_parameters {W} (client : RedisClient W)
    (self : Params) (fuel : nat) (w : W) :
  (180 <= fuel)%nat ->
  exists r s',
    run client self fuel w = Some (r, s') /\
    Forall (fun p => p = create_parameters self /\
                     cp_redis_configuration p = None /\
                     cp_enable_non_ssl_port p = None /\
                     cp_shard_count p = None /\
                     cp_subnet_id p = None /\
                     cp_static_ip p = None)
           (created_with (calls s')).
Proof.
  intros Hfuel.
  destruct (run_leaves_trace client self fuel w Hfuel) as (r & s' & Hrun & Htr).
  exists r, s'. split; [exact Hrun|].
  apply run_trace_created_with in Htr.
  eapply Forall_impl; [exact Htr|].
  intros p ->. repeat split.
Qed.

(** C3: desired = cache1 in rg1, Premium P 1, two shards, a Redis
    configuration, the non-SSL port enabled, a subnet and a static IP.  On
    the create path (remote = not found) as on the update path (remote =
    found) the one create call carries none of these five settings. *)
Theorem create_drops_desired_fields :
  let self := Mock.desired present false in
  let dropped (p : RedisCreateParameters) :=
    cp_redis_configuration p = None /\
    cp_redis_configuration p <> Some (redis_configuration self) /\
    cp_enable_non_ssl_port p = None /\
    cp_enable_non_ssl_port p <> Some (enable_nonssl_port self) /\
    cp_shard_count p = None /\
    cp_shard_count p <> Some (shard_count self) /\
    cp_subnet_id p = None /\
    cp_subnet_id p <> Some (subnet_id self) /\
    cp_static_ip p = None /\
    cp_static_ip p <> Some (static_ip self) in
  shard_count self = 2 /\
  match run (Mock.scripted
               (Mock.first_then (Raises Mock.not_found)
                  (Mock.always (Returns (Mock.cache "Succeeded"))))
               (Returns (Mock.cache "Running")) (Returns tt) (Returns tt))
            self 180 0%nat with
  | Some (Ok _, s') => exists p, created_with (calls s') = [p] /\ dropped p
  | _ => False
  end /\
  match run (Mock.scripted (Mock.always (Returns (Mock.cache "Succeeded")))
               (Returns (Mock.cache "Succeeded")) (Returns tt) (Returns tt))
            self 180 0%nat with
  | Some (Ok _, s') => exists p, created_with (calls s') = [p] /\ dropped p
  | _ => False
  end.
Proof.
  cbv zeta. split; [reflexivity|].
  split; vm_compute; eexists; (split; [reflexivity|]);
    repeat split; try reflexivity; discriminate.
Qed.

(** While fewer than 179 polls are needed, the wait does what is expected of
    it: "not Succeeded" for the first [K] polls and "Succeeded" at the next
    one make it return [True] after [K + 1] polls. *)
Lemma wait_succeeds_before_last_round {W} (client : RedisClient W)
    (self : Params) (fuel K : nat) (s : St W) c r :
  (180 <= fuel)%nat ->
  (K < 179)%nat ->
  redis_cache s = Some c ->
  succeeded c = false ->
  (forall i, (i < K)%nat ->
     exists ri, nth_get client self i (world s) = Returns ri /\
                succeeded ri = false) ->
  nth_get client self K (world s) = Returns r ->
  succeeded r = true ->
  exists s',
    check_resource_created client self fuel s = Some (Ok true, s') /\
    calls s' = calls s
               ++ polls (resource_group_name self) (name self) (K + 1) /\
    redis_cache s' = Some r.
Proof.
  intros Hfuel HK Hc Hs Hrun Hlast Hr.
  rewrite check_resource_created_eq.
  rewrite (wait_loop_succeeds client self K fuel 0 s c r);
    auto; try lia.
  eexists. split; [reflexivity|]. cbn [calls redis_cache].
  replace (K + 1)%nat with (S K) by lia. split; reflexivity.
Qed.

(** C4 at K = 179: the create result and the first 179 polls report
    "Running", the 180th poll reports "Succeeded".  The wait makes the 180
    [get] calls, holds the succeeded cache, and still returns [False]; the
    run then fails with "Waited too long, resource might be created" while
    its results carry [provisioning_state = 'Succeeded']. *)
Theorem wait_fails_when_last_poll_succeeds :
  let self := Mock.desired present false in
  match check_resource_created
          (Mock.scripted (Mock.running_then_succeeded 179)
             (Returns (Mock.cache "Running")) (Returns tt) (Returns tt))
          self 180 (Mock.created (Mock.cache "Running")) with
  | Some (Ok false, s') =>
      count_calls is_get (calls s') = 180%nat /\
      calls s' = polls "rg1" "cache1" 180 /\
      redis_cache s' = Some (Mock.cache "Succeeded")
  | _ => False
  end /\
  match run (Mock.scripted
               (Mock.first_then (Raises Mock.not_found)
                  (Mock.running_then_succeeded 179))
               (Returns (Mock.cache "Running")) (Returns tt) (Returns tt))
            self 180 0%nat with
  | Some (FailJson msg, s') =>
      msg = waited_too_long /\
      results s' !! "provisioning_state" = Some (VStr "Succeeded") /\
      count_calls is_get (calls s') = 181%nat
  | _ => False
  end.
Proof. vm_compute. repeat split; reflexivity. Qed.

(** A fetch that raises anything but a [CloudError] ends the run at once:
    the exception escapes and nothing but the one [get] was called. *)
Lemma exception_on_fetch_is_terminal {W} (client : RedisClient W)
    (self : Params) (fuel : nat) (w : W) msg w1 :
  redis_get client (resource_group_name self) (name self) w
  = (Raises (PyException msg), w1) ->
  exists s',
    run client self fuel w = Some (Raise (PyException msg), s') /\
    calls s' = [EvGet (resource_group_name self) (name self)].
Proof.
  intros Hget. unfold run.
  rewrite (exec_module_exception client self fuel w msg w1 Hget).
  eexists. split; reflexivity.
Qed.

(** C6: the initial fetch fails with a [CloudError] that is not "not found"
    (403, authorization failed).  The claim wants a terminal failure and no
    mutating call; the module takes the error for "does not exist", issues
    the create call and returns [changed = True]. *)
Theorem cloud_error_on_fetch_is_absorbed :
  let client :=
    Mock.scripted
      (Mock.first_then (Raises Mock.forbidden)
         (Mock.always (Returns (Mock.cache "Succeeded"))))
      (Returns (Mock.cache "Succeeded")) (Returns tt) (Returns tt) in
  let self := Mock.desired present false in
  is_not_found Mock.forbidden = false /\
  nth_get client self 0 0%nat = Raises Mock.forbidden /\
  match run client self 180 0%nat with
  | Some (Ok m, s') =>
      m !! "changed" = Some (VBool true) /\
      calls s' = [EvGet "rg1" "cache1";
                  EvCreate "rg1" "cache1" (create_parameters self)] /\
      count_calls is_mutating (calls s') = 1%nat
  | _ => False
  end.
Proof. vm_compute. repeat split; reflexivity. Qed.

(** Once a cache object is held, [populate_results] cannot raise, whichever
    of its attributes are [None], and the [enable_nonssl_port] entry it
    writes is the cache's [ssl_port]. *)
Lemma populate_results_total {W} (s : St W) r :
  redis_cache s = Some r ->
  exists s',
    populate_results s = Some (Ok tt, s') /\
    results s' !! "hostname" = Some (of_option VStr (r_host_name r)) /\
    results s' !! "enable_nonssl_port" = Some (of_option VInt (r_ssl_port r)).
Proof.
  intros Hc. rewrite (populate_results_some s r Hc).
  eexists. split; [reflexivity|]. cbn [results]. unfold populated.
  split; simplify_map_eq; reflexivity.
Qed.

(** C9: a cache is created and reaches "Succeeded" with the non-SSL port
    disabled and SSL port 6380.  The reported [hostname] is the snapshot's,
    but the reported [enable_nonssl_port] is 6380, the snapshot's
    [ssl_port], not its [enable_non_ssl_port] flag. *)
Theorem enable_nonssl_port_reports_ssl_port :
  let snapshot := Mock.cache "Succeeded" in
  let client :=
    Mock.scripted
      (Mock.first_then (Raises Mock.not_found) (Mock.always (Returns snapshot)))
      (Returns (Mock.cache "Running")) (Returns tt) (Returns tt) in
  r_enable_non_ssl_port snapshot = Some false /\
  r_ssl_port snapshot = Some 6380 /\
  match run client (Mock.desired present false) 180 0%nat with
  | Some (Ok m, s') =>
      redis_cache s' = Some snapshot /\
      m !! "state" = Some (VStr "present") /\
      m !! "hostname" = Some (of_option VStr (r_host_name snapshot)) /\
      m !! "enable_nonssl_port" = Some (VInt 6380) /\
      m !! "enable_nonssl_port"
      <> Some (of_option VBool (r_enable_non_ssl_port snapshot))
  | _ => False
  end.
Proof. vm_compute. repeat split; try reflexivity. discriminate. Qed.

(** ** Further behaviour of the wait loop *)

Section WaitLoopOutcomes.

Context {W : Type}.
Variable client : RedisClient W.
Variable self : Params.

Let rg := resource_group_name self.
Let nm := name self.

Lemma nth_get_S i (w : W) :
  nth_get client self (S i) w
  = nth_get client self i (snd (redis_get client rg nm w)).
Proof. reflexivity. Qed.

(** [K] unsuccessful polls, then a [get] that raises. *)
Lemma wait_loop_raises K : forall fuel count (s : St W) c e,
  redis_cache s = Some c ->
  succeeded c = false ->
  (K < fuel)%nat ->
  count + Z.of_nat K < 180 ->
  (forall i, (i < K)%nat ->
     exists ri, nth_get client self i (world s) = Returns ri /\
                succeeded ri = false) ->
  nth_get client self K (world s) = Raises e ->
  exists s',
    wait_loop client self fuel 10 count s = Some (Raise e, s') /\
    polled client self s s' (S K) /\
    is_Some (redis_cache s').
Proof.
  induction K as [|K IH]; intros fuel count s c e Hc Hs Hfuel Hcount Hrun HK.
  - destruct fuel as [|fuel]; try lia.
    rewrite (wait_loop_unfold _ _ _ count s c Hc), Hs. fold rg nm.
    unfold nth_get in HK. cbn in HK. fold rg nm in HK.
    assert (Hp : forall u,
              polled client self s
                (mkSt u (to_update s) (results s)
                      (snd (redis_get client rg nm (world s)))
                      (calls s ++ polls rg nm 1)) 1).
    { intros u. unfold polled. cbn. repeat split. }
    destruct (redis_get client rg nm (world s)) as [r0 w'].
    cbn in HK, Hp |- *. subst r0.
    eexists. split; [reflexivity|]. split; [apply Hp|]. cbn. eauto.
  - destruct fuel as [|fuel]; try lia.
    rewrite (wait_loop_unfold _ _ _ count s c Hc), Hs. fold rg nm.
    destruct (Hrun 0%nat ltac:(lia)) as (r0 & H0 & Hs0).
    unfold nth_get in H0. cbn in H0. fold rg nm in H0.
    rewrite nth_get_S in HK.
    assert (Hrun' : forall i, (i < K)%nat ->
              exists ri,
                nth_get client self i
                  (snd (redis_get client rg nm (world s))) = Returns ri /\
                succeeded ri = false).
    { intros i Hi. rewrite <- nth_get_S. apply Hrun. lia. }
    assert (Hp : forall u,
              polled client self s
                (mkSt u (to_update s) (results s)
                      (snd (redis_get client rg nm (world s)))
                      (calls s ++ polls rg nm 1)) 1).
    { intros u. unfold polled. cbn. repeat split. }
    destruct (redis_get client rg nm (world s)) as [r1 w'].
    cbn in H0, HK, Hrun', Hp |- *. subst r1.
    destruct (count + 1 =? 180) eqn:E; [apply Z.eqb_eq in E; lia|].
    destruct (IH fuel (count + 1)
                 (mkSt (Some r0) (to_update s) (results s) w'
                       (calls s ++ [EvSleep 10; EvGet rg nm])) r0 e)
      as (s' & Hrun2 & Hp2 & Hsome); cbn; auto; try lia.
    exists s'. split; [exact Hrun2|]. split; [|exact Hsome].
    eapply polled_S; [apply Hp|exact Hp2].
Qed.

(** [n + 1] unsuccessful polls that bring the counter to 180: the loop ends
    holding the reply to the last of them. *)
Lemma wait_loop_times_out_last n : forall fuel count (s : St W) c r_last,
  redis_cache s = Some c ->
  succeeded c = false ->
  (n < fuel)%nat ->
  count + Z.of_nat (S n) = 180 ->
  (forall i, (i < n)%nat ->
     exists ri, nth_get client self i (world s) = Returns ri /\
                succeeded ri = false) ->
  nth_get client self n (world s) = Returns r_last ->
  wait_loop client self fuel 10 count s =
    Some (Ok false,
          mkSt (Some r_last) (to_update s) (results s)
               (world_after_gets client self (S n) (world s))
               (calls s ++ polls rg nm (S n))).
Proof.
  induction n as [|n IH]; intros fuel count s c r_last Hc Hs Hfuel Hcount Hrun Hn.
  - destruct fuel as [|fuel]; try lia.
    rewrite (wait_loop_unfold _ _ _ count s c Hc), Hs. fold rg nm.
    unfold nth_get in Hn. cbn in Hn. fold rg nm in Hn.
    cbn [world_after_gets]. fold rg nm.
    destruct (redis_get client rg nm (world s)) as [r0 w'].
    cbn in Hn |- *. subst r0.
    destruct (count + 1 =? 180) eqn:E; [reflexivity|].
    apply Z.eqb_neq in E. lia.
  - destruct fuel as [|fuel]; try lia.
    rewrite (wait_loop_unfold _ _ _ count s c Hc), Hs. fold rg nm.
    destruct (Hrun 0%nat ltac:(lia)) as (r0 & H0 & Hs0).
    unfold nth_get in H0. cbn in H0. fold rg nm in H0.
    rewrite nth_get_S in Hn.
    assert (Hrun' : forall i, (i < n)%nat ->
              exists ri,
                nth_get client self i
                  (snd (redis_get client rg nm (world s))) = Returns ri /\
                succeeded ri = false).
    { intros i Hi. rewrite <- nth_get_S. apply Hrun. lia. }
    change (world_after_gets client self (S (S n)) (world s))
      with (world_after_gets client self (S n)
              (snd (redis_get client rg nm (world s)))).
    destruct (redis_get client rg nm (world s)) as [r1 w'].
    cbn in H0, Hn, Hrun' |- *. subst r1.
    destruct (count + 1 =? 180) eqn:E; [apply Z.eqb_eq in E; lia|].
    erewrite (IH fuel (count + 1) _ r0 r_last);
      [ cbn; now rewrite <- app_assoc | reflexivity | exact Hs0 | lia | lia
      | exact Hrun' | exact Hn ].
Qed.

End WaitLoopOutcomes.

(** ** Paths of a run that involve no polling *)

(** X1: outside check mode, with [state = present] and a cache that the
    fetch finds, a successful run is the fetch followed by one create call
    and nothing else: there is no sleep and no poll, and the snapshot
    returned is the create call's own result, whatever provisioning state it
    reports. *)
Theorem update_returns_create_result_unpolled {W} (client : RedisClient W)
    (self : Params) (fuel : nat) (w : W) (r : RedisResource) (w1 : W)
    (c : RedisResource) (w2 : W) :
  check_mode self = false ->
  state self = present ->
  redis_get client (resource_group_name self) (name self) w
  = (Returns r, w1) ->
  redis_create client (resource_group_name self) (name self)
    (create_parameters self) w1 = (Returns c, w2) ->
  let m := populated c (reported true present initial_results) in
  run client self fuel w =
    Some (Ok m,
          mkSt (Some c) true m w2
               [EvGet (resource_group_name self) (name self);
                EvCreate (resource_group_name self) (name self)
                         (create_parameters self)]) /\
  m !! "provisioning_state" = Some (of_option VStr (r_provisioning_state c)) /\
  m !! "changed" = Some (VBool true) /\
  m !! "state" = Some (VStr "present").
Proof.
  intros Hcheck Hstate Hget Hcreate m. split.
  - unfold run.
    rewrite (exec_module_found client self fuel w r w1 Hget), Hcheck, Hstate.
    rewrite update_block_eq. cbn [fetched world calls results to_update].
    rewrite Hcreate. reflexivity.
  - unfold m, populated, reported. repeat split; simplify_map_eq; reflexivity.
Qed.

Lemma update_returns_create_result_unpolled_witness :
  let client :=
    Mock.scripted (Mock.always (Returns (Mock.cache "Succeeded")))
      (Returns (Mock.cache "Updating")) (Returns tt) (Returns tt) in
  let self := Mock.desired present false in
  let m := populated (Mock.cache "Updating")
             (reported true present initial_results) in
  check_mode self = false /\
  state self = present /\
  redis_get client (resource_group_name self) (name self) 0%nat
  = (Returns (Mock.cache "Succeeded"), 1%nat) /\
  redis_create client (resource_group_name self) (name self)
    (create_parameters self) 1%nat
  = (Returns (Mock.cache "Updating"), 1%nat) /\
  (run client self 0 0%nat =
     Some (Ok m,
           mkSt (Some (Mock.cache "Updating")) true m 1%nat
                [EvGet (resource_group_name self) (name self);
                 EvCreate (resource_group_name self) (name self)
                          (create_parameters self)]) /\
   m !! "provisioning_state"
   = Some (of_option VStr (r_provisioning_state (Mock.cache "Updating"))) /\
   m !! "changed" = Some (VBool true) /\
   m !! "state" = Some (VStr "present")).
Proof.
  intros client self m.
  split; [reflexivity|]. split; [reflexivity|].
  split; [reflexivity|]. split; [reflexivity|].
  exact (update_returns_create_result_unpolled client self 0 0%nat
           (Mock.cache "Succeeded") 1%nat (Mock.cache "Updating") 1%nat
           eq_refl eq_refl eq_refl eq_refl).
Defined.

(** X3: outside check mode and with [state = present], once the fetch has
    found the cache or reported it not found, a create call that raises
    stops the run there, on the update path as on the create path: a
    [CloudError] becomes the failure "Failed with <message>", any other
    exception escapes as it is; nothing is polled and [self.results] is
    still as [__init__] built it. *)
Theorem create_error_ends_the_run {W} (client : RedisClient W)
    (self : Params) (fuel : nat) (w : W) (g : reply RedisResource) (w1 : W)
    (e : exn) (w2 : W) :
  check_mode self = false ->
  state self = present ->
  redis_get client (resource_group_name self) (name self) w = (g, w1) ->
  (forall e0, g = Raises e0 -> is_not_found e0 = true) ->
  redis_create client (resource_group_name self) (name self)
    (create_parameters self) w1 = (Raises e, w2) ->
  exists s',
    run client self fuel w =
      Some (if is_CloudError e then FailJson ("Failed with " +:+ str e)
            else Raise e, s') /\
    calls s' = [EvGet (resource_group_name self) (name self);
                EvCreate (resource_group_name self) (name self)
                         (create_parameters self)] /\
    results s' = initial_results.
Proof.
  intros Hcheck Hstate Hget Hg Hcreate. unfold run.
  destruct g as [r|[code msg|msg]].
  - rewrite (exec_module_found client self fuel w r w1 Hget), Hcheck, Hstate.
    rewrite update_block_eq. cbn [fetched world calls results to_update].
    rewrite Hcreate. eexists. split; [reflexivity|]. split; reflexivity.
  - rewrite (exec_module_cloud_error client self fuel w code msg w1 Hget).
    rewrite Hcheck. cbn [andb].
    rewrite create_block_eq. cbn [missing world calls results to_update].
    rewrite Hcreate. eexists. split; [reflexivity|]. split; reflexivity.
  - discriminate (Hg _ eq_refl).
Qed.

Lemma create_error_ends_the_run_witness :
  let client :=
    Mock.scripted (Mock.always (Raises Mock.not_found))
      (Raises (CloudError 409 "Conflict")) (Returns tt) (Returns tt) in
  let self := Mock.desired present false in
  check_mode self = false /\
  state self = present /\
  redis_get client (resource_group_name self) (name self) 0%nat
  = (Raises Mock.not_found, 1%nat) /\
  (forall e0, (Raises Mock.not_found : reply RedisResource) = Raises e0 ->
              is_not_found e0 = true) /\
  redis_create client (resource_group_name self) (name self)
    (create_parameters self) 1%nat
  = (Raises (CloudError 409 "Conflict"), 1%nat) /\
  exists s',
    run client self 180 0%nat =
      Some (if is_CloudError (CloudError 409 "Conflict")
            then FailJson ("Failed with " +:+ str (CloudError 409 "Conflict"))
            else Raise (CloudError 409 "Conflict"), s') /\
    calls s' = [EvGet (resource_group_name self) (name self);
                EvCreate (resource_group_name self) (name self)
                         (create_parameters self)] /\
    results s' = initial_results.
Proof.
  intros client self.
  assert (Hg : forall e0,
            (Raises Mock.not_found : reply RedisResource) = Raises e0 ->
            is_not_found e0 = true)
    by (intros e0 [= <-]; reflexivity).
  split; [reflexivity|]. split; [reflexivity|]. split; [reflexivity|].
  split; [exact Hg|]. split; [reflexivity|].
  exact (create_error_ends_the_run client self 180 0%nat
           (Raises Mock.not_found) 1%nat (CloudError 409 "Conflict") 1%nat
           eq_refl eq_refl eq_refl Hg eq_refl).
Defined.

(** X5: outside check mode, with [state = absent] and a cache that is found,
    an exception [e] raised by the delete call ends the run before the
    poller is awaited, and one raised by the wait on the poller ends it
    right after; a [CloudError] becomes the failure "Failed with <message>",
    any other exception escapes, and [changed] and [state] are never
    assigned. *)
Theorem delete_error_ends_the_run {W} (client : RedisClient W)
    (self : Params) (fuel : nat) (w : W) (r : RedisResource) (w1 : W)
    (e : exn) (w2 : W) (tail : list Event) :
  check_mode self = false ->
  state self = absent ->
  redis_get client (resource_group_name self) (name self) w
  = (Returns r, w1) ->
  (redis_delete client (resource_group_name self) (name self) w1
   = (Raises e, w2) /\
   tail = [EvDelete (resource_group_name self) (name self)]) \/
  (exists u w',
     redis_delete client (resource_group_name self) (name self) w1
     = (Returns u, w') /\
     poller_result client w' = (Raises e, w2) /\
     tail = [EvDelete (resource_group_name self) (name self);
             EvPollerResult]) ->
  exists s',
    run client self fuel w =
      Some (if is_CloudError e then FailJson ("Failed with " +:+ str e)
            else Raise e, s') /\
    calls s' = EvGet (resource_group_name self) (name self) :: tail /\
    results s' = initial_results.
Proof.
  intros Hcheck Hstate Hget Hdel. unfold run.
  rewrite (exec_module_found client self fuel w r w1 Hget), Hcheck, Hstate.
  rewrite delete_block_eq. cbn [fetched world calls results to_update].
  destruct Hdel as [[Hd ->] | (u & w' & Hd & Hp & ->)]; rewrite Hd.
  - eexists. split; [reflexivity|]. split; reflexivity.
  - rewrite Hp. eexists. split; [reflexivity|]. split; reflexivity.
Qed.

Lemma delete_error_ends_the_run_witness :
  let client :=
    Mock.scripted (Mock.always (Returns (Mock.cache "Succeeded")))
      (Returns (Mock.cache "Running")) (Returns tt)
      (Raises (PyException "timed out")) in
  let self := Mock.desired absent false in
  let tail := [EvDelete (resource_group_name self) (name self);
               EvPollerResult] in
  check_mode self = false /\
  state self = absent /\
  redis_get client (resource_group_name self) (name self) 0%nat
  = (Returns (Mock.cache "Succeeded"), 1%nat) /\
  ((redis_delete client (resource_group_name self) (name self) 1%nat
    = (Raises (PyException "timed out"), 1%nat) /\
    tail = [EvDelete (resource_group_name self) (name self)]) \/
   (exists u w',
      redis_delete client (resource_group_name self) (name self) 1%nat
      = (Returns u, w') /\
      poller_result client w' = (Raises (PyException "timed out"), 1%nat) /\
      tail = [EvDelete (resource_group_name self) (name self);
              EvPollerResult])) /\
  exists s',
    run client self 0 0%nat =
      Some (if is_CloudError (PyException "timed out")
            then FailJson ("Failed with " +:+ str (PyException "timed out"))
            else Raise (PyException "timed out"), s') /\
    calls s' = EvGet (resource_group_name self) (name self) :: tail /\
    results s' = initial_results.
Proof.
  intros client self tail.
  assert (Hd : (redis_delete client (resource_group_name self) (name self)
                  1%nat
                = (Raises (PyException "timed out"), 1%nat) /\
                tail = [EvDelete (resource_group_name self) (name self)]) \/
               (exists u w',
                  redis_delete client (resource_group_name self) (name self)
                    1%nat = (Returns u, w') /\
                  poller_result client w'
                  = (Raises (PyException "timed out"), 1%nat) /\
                  tail = [EvDelete (resource_group_name self) (name self);
                          EvPollerResult])).
  { right. exists tt, 1%nat. repeat split; reflexivity. }
  split; [reflexivity|]. split; [reflexivity|]. split; [reflexivity|].
  split; [exact Hd|].
  exact (delete_error_ends_the_run client self 0 0%nat
           (Mock.cache "Succeeded") 1%nat (PyException "timed out") 1%nat
           tail eq_refl eq_refl eq_refl Hd).
Defined.

(** ** Check mode *)

Lemma reported_no_snapshot changed st :
  no_snapshot (reported changed st initial_results).
Proof. destruct changed, st; vm_compute; repeat constructor. Qed.

(** X7: in check mode, when the fetch finds the cache, the run is the fetch
    alone, whatever the desired state: it returns [changed = True], the
    requested state, and a snapshot whose every field is [None], although a
    cache object was fetched. *)
Theorem dry_run_found_only_fetches {W} (client : RedisClient W)
    (self : Params) (fuel : nat) (w : W) (r : RedisResource) (w1 : W) :
  check_mode self = true ->
  redis_get client (resource_group_name self) (name self) w
  = (Returns r, w1) ->
  let m := reported true (state self) initial_results in
  exists s',
    run client self fuel w = Some (Ok m, s') /\
    calls s' = [EvGet (resource_group_name self) (name self)] /\
    redis_cache s' = Some r /\
    m !! "changed" = Some (VBool true) /\
    m !! "state" = Some (VStr (State_str (state self))) /\
    no_snapshot m.
Proof.
  intros Hcheck Hget m. unfold run.
  rewrite (exec_module_found client self fuel w r w1 Hget), Hcheck.
  eexists. split; [reflexivity|]. cbn [fetched calls redis_cache].
  split; [reflexivity|]. split; [reflexivity|].
  unfold m, reported.
  split; [simplify_map_eq; reflexivity|].
  split; [simplify_map_eq; reflexivity|].
  apply reported_no_snapshot.
Qed.

Lemma dry_run_found_only_fetches_witness :
  let client :=
    Mock.scripted (Mock.always (Returns (Mock.cache "Succeeded")))
      (Returns (Mock.cache "Running")) (Returns tt) (Returns tt) in
  let self := Mock.desired present true in
  let m := reported true (state self) initial_results in
  check_mode self = true /\
  redis_get client (resource_group_name self) (name self) 0%nat
  = (Returns (Mock.cache "Succeeded"), 1%nat) /\
  exists s',
    run client self 0 0%nat = Some (Ok m, s') /\
    calls s' = [EvGet (resource_group_name self) (name self)] /\
    redis_cache s' = Some (Mock.cache "Succeeded") /\
    m !! "changed" = Some (VBool true) /\
    m !! "state" = Some (VStr (State_str (state self))) /\
    no_snapshot m.
Proof.
  intros client self m. split; [reflexivity|]. split; [reflexivity|].
  exact (dry_run_found_only_fetches client self 0 0%nat
           (Mock.cache "Succeeded") 1%nat eq_refl eq_refl).
Defined.

(** X8: in check mode, with [state = present] and a fetch that reports the
    cache not found, the run is the fetch alone; the dictionary it returns
    has [state = 'present'] and the requested name, and every other snapshot
    field is [None]. *)
Theorem dry_run_create_reports_name_only {W} (client : RedisClient W)
    (self : Params) (fuel : nat) (w : W) (e0 : exn) (w1 : W) :
  check_mode self = true ->
  state self = present ->
  redis_get client (resource_group_name self) (name self) w
  = (Raises e0, w1) ->
  is_not_found e0 = true ->
  exists m s',
    run client self fuel w = Some (Ok m, s') /\
    calls s' = [EvGet (resource_group_name self) (name self)] /\
    m !! "state" = Some (VStr "present") /\
    m !! "name" = Some (VStr (name self)) /\
    Forall (fun k => k <> "name" -> m !! k = Some VNone) snapshot_keys.
Proof.
  intros Hcheck Hstate Hget Hnf.
  destruct e0 as [code msg|msg]; [|discriminate]. unfold run.
  rewrite (exec_module_cloud_error client self fuel w code msg w1 Hget).
  rewrite Hcheck, Hstate. cbn [andb State_eqb].
  eexists. eexists. split; [reflexivity|]. cbn [calls].
  split; [reflexivity|].
  unfold reported. cbn [State_str].
  split; [simplify_map_eq; reflexivity|].
  split; [simplify_map_eq; reflexivity|].
  unfold snapshot_keys.
  repeat (constructor;
          [intros Hk; try (now destruct Hk);
           rewrite lookup_insert_ne by congruence; vm_compute; reflexivity|]).
  constructor.
Qed.

Lemma dry_run_create_reports_name_only_witness :
  let client :=
    Mock.scripted (Mock.always (Raises Mock.not_found))
      (Returns (Mock.cache "Running")) (Returns tt) (Returns tt) in
  let self := Mock.desired present true in
  check_mode self = true /\
  state self = present /\
  redis_get client (resource_group_name self) (name self) 0%nat
  = (Raises Mock.not_found, 1%nat) /\
  is_not_found Mock.not_found = true /\
  exists m s',
    run client self 0 0%nat = Some (Ok m, s') /\
    calls s' = [EvGet (resource_group_name self) (name self)] /\
    m !! "state" = Some (VStr "present") /\
    m !! "name" = Some (VStr (name self)) /\
    Forall (fun k => k <> "name" -> m !! k = Some VNone) snapshot_keys.
Proof.
  intros client self.
  split; [reflexivity|]. split; [reflexivity|]. split; [reflexivity|].
  split; [reflexivity|].
  exact (dry_run_create_reports_name_only client self 0 0%nat Mock.not_found 1%nat eq_refl eq_refl eq_refl eq_refl).
Defined.

(** ** The create path and its wait *)

Section CreatePath.

Context {W : Type}.
Variable client : RedisClient W.
Variable self : Params.
Variable fuel : nat.
Variables (w w1 w2 : W) (code : Z) (msg : string) (r0 : RedisResource).

Let rg := resource_group_name self.
Let nm := name self.

Hypothesis Hcheck : check_mode self = false.
Hypothesis Hget :
  redis_get client rg nm w = (Raises (CloudError code msg), w1).
Hypothesis Hcreate :
  redis_create client rg nm (create_parameters self) w1 = (Returns r0, w2).

(** The run is the create block entered after the failed fetch, and the
    wait starts from the create call's result. *)
Lemma run_enters_wait :
  run client self fuel w =
    match wait_loop client self fuel 10 0
            (mkSt (Some r0) false initial_results w2
                  [EvGet rg nm; EvCreate rg nm (create_parameters self)]) with
    | None => None
    | Some (Raise e, s') => Some (surfaced e, s')
    | Some (FailJson m, s') => Some (FailJson m, s')
    | Some (Ok false, s') =>
        match populate_results s' with
        | Some (Ok _, s'') => Some (FailJson waited_too_long, s'')
        | Some (Raise e, s'') => Some (surfaced e, s'')
        | Some (FailJson m, s'') => Some (FailJson m, s'')
        | None => None
        end
    | Some (Ok true, s') =>
        match redis_cache s' with
        | Some r' =>
            let m := populated r' (reported true present (results s')) in
            Some (Ok m, mkSt (Some r') (to_update s') m (world s') (calls s'))
        | None =>
            Some (Raise (PyException "AttributeError"),
                  mkSt None (to_update s')
                       (reported true present (results s'))
                       (world s') (calls s'))
        end
    end.
Proof.
  unfold run.
  rewrite (exec_module_cloud_error client self fuel w code msg w1 Hget).
  rewrite Hcheck. cbn [andb].
  rewrite create_block_eq. cbn [missing world calls results to_update].
  fold rg nm. rewrite Hcreate. reflexivity.
Qed.

End CreatePath.

(** X2: outside check mode, with [state = present], a fetch that reports the
    cache not found and a create call whose result is not yet "Succeeded":
    when
    the first [K] polls (K < 179) are not "Succeeded" and the next one is,
    the run returns [changed = True], [state = 'present'] and the snapshot
    of that last poll, not of the create result, after exactly [K + 1]
    rounds of sleep and [get]. *)
Theorem create_reports_last_polled_snapshot {W} (client : RedisClient W)
    (self : Params) (fuel K : nat) (w w1 w2 : W) (e0 : exn)
    (r0 r : RedisResource) :
  (180 <= fuel)%nat ->
  (K < 179)%nat ->
  check_mode self = false ->
  state self = present ->
  redis_get client (resource_group_name self) (name self) w
  = (Raises e0, w1) ->
  is_not_found e0 = true ->
  redis_create client (resource_group_name self) (name self)
    (create_parameters self) w1 = (Returns r0, w2) ->
  succeeded r0 = false ->
  (forall i, (i < K)%nat ->
     exists ri, nth_get client self i w2 = Returns ri /\
                succeeded ri = false) ->
  nth_get client self K w2 = Returns r ->
  succeeded r = true ->
  let m := populated r (reported true present initial_results) in
  exists s',
    run client self fuel w = Some (Ok m, s') /\
    redis_cache s' = Some r /\
    calls s' = EvGet (resource_group_name self) (name self)
               :: EvCreate (resource_group_name self) (name self)
                           (create_parameters self)
               :: polls (resource_group_name self) (name self) (K + 1) /\
    m !! "provisioning_state" = Some (VStr "Succeeded") /\
    m !! "hostname" = Some (of_option VStr (r_host_name r)).
Proof.
  intros Hfuel HK Hcheck Hstate Hget Hnf Hcreate Hr0 Hpolls Hlast Hr m.
  destruct e0 as [code msg|msg]; [|discriminate].
  rewrite (run_enters_wait client self fuel w w1 w2 code msg r0
             Hcheck Hget Hcreate).
  rewrite (wait_loop_succeeds client self K fuel 0 _ r0 r);
    cbn [redis_cache world]; auto; try lia.
  eexists. split; [reflexivity|]. cbn [redis_cache calls].
  split; [reflexivity|].
  replace (K + 1)%nat with (S K) by lia.
  split; [reflexivity|].
  unfold m, populated, reported. split; simplify_map_eq; [|reflexivity].
  unfold succeeded in Hr.
  destruct (r_provisioning_state r) as [p|]; [|discriminate].
  apply String.eqb_eq in Hr. now subst p.
Qed.

Lemma create_reports_last_polled_snapshot_witness :
  let client :=
    Mock.scripted
      (Mock.first_then (Raises Mock.not_found)
         (Mock.running_then_succeeded 2))
      (Returns (Mock.cache "Creating")) (Returns tt) (Returns tt) in
  let self := Mock.desired present false in
  let m := populated (Mock.cache "Succeeded")
             (reported true present initial_results) in
  (180 <= 180)%nat /\
  (2 < 179)%nat /\
  check_mode self = false /\
  state self = present /\
  redis_get client (resource_group_name self) (name self) 0%nat
  = (Raises Mock.not_found, 1%nat) /\
  is_not_found Mock.not_found = true /\
  redis_create client (resource_group_name self) (name self)
    (create_parameters self) 1%nat = (Returns (Mock.cache "Creating"), 1%nat) /\
  succeeded (Mock.cache "Creating") = false /\
  (forall i, (i < 2)%nat ->
     exists ri, nth_get client self i 1%nat = Returns ri /\
                succeeded ri = false) /\
  nth_get client self 2 1%nat = Returns (Mock.cache "Succeeded") /\
  succeeded (Mock.cache "Succeeded") = true /\
  exists s',
    run client self 180 0%nat = Some (Ok m, s') /\
    redis_cache s' = Some (Mock.cache "Succeeded") /\
    calls s' = EvGet (resource_group_name self) (name self)
               :: EvCreate (resource_group_name self) (name self)
                           (create_parameters self)
               :: polls (resource_group_name self) (name self) (2 + 1) /\
    m !! "provisioning_state" = Some (VStr "Succeeded") /\
    m !! "hostname"
    = Some (of_option VStr (r_host_name (Mock.cache "Succeeded"))).
Proof.
  intros client self m.
  assert (Hpolls : forall i, (i < 2)%nat ->
            exists ri, nth_get client self i 1%nat = Returns ri /\
                       succeeded ri = false).
  { intros i Hi. exists (Mock.cache "Running").
    destruct i as [|[|i]]; [split; reflexivity|split; reflexivity|lia]. }
  split; [apply le_n|]. split; [lia|].
  split; [reflexivity|]. split; [reflexivity|]. split; [reflexivity|].
  split; [reflexivity|].
  split; [reflexivity|]. split; [reflexivity|]. split; [exact Hpolls|].
  split; [reflexivity|]. split; [reflexivity|].
  exact (create_reports_last_polled_snapshot client self 180 2 0%nat 1%nat
           1%nat Mock.not_found (Mock.cache "Creating")
           (Mock.cache "Succeeded") (le_n 180) ltac:(lia) eq_refl eq_refl
           eq_refl eq_refl eq_refl eq_refl Hpolls eq_refl eq_refl).
Defined.

(** A fetch that raises a [CloudError] leads to the create block, unless
    check mode returns from its [state = present] branch. *)
Lemma run_enters_create_block {W} (client : RedisClient W) (self : Params)
    (fuel : nat) (w : W) (code : Z) (msg : string) (w1 : W) :
  redis_get client (resource_group_name self) (name self) w
  = (Raises (CloudError code msg), w1) ->
  check_mode self && State_eqb (state self) present = false ->
  run client self fuel w = create_block client self fuel (missing self w1).
Proof.
  intros Hget Hmode. unfold run.
  now rewrite (exec_module_cloud_error client self fuel w code msg w1 Hget),
    Hmode.
Qed.

(** X4: in every run that reaches the provisioning wait (the fetch raised
    a [CloudError], check mode did not return, the create call came back
    with a cache that is not "Succeeded"): when the first [K] polls
    (K < 180) are not "Succeeded" and the next [get] raises [e], the wait
    hands [e] on unchanged and polling stops at that call; a [CloudError]
    ends the run with the failure "Failed with <message>", any other
    exception escapes, and [self.results] is still as [__init__] built
    it. *)
Theorem poll_error_ends_the_wait {W} (client : RedisClient W)
    (self : Params) (fuel K : nat) (w w1 w2 : W) (code : Z) (msg : string)
    (r0 : RedisResource) (e : exn) :
  (180 <= fuel)%nat ->
  (K < 180)%nat ->
  redis_get client (resource_group_name self) (name self) w
  = (Raises (CloudError code msg), w1) ->
  check_mode self && State_eqb (state self) present = false ->
  redis_create client (resource_group_name self) (name self)
    (create_parameters self) w1 = (Returns r0, w2) ->
  succeeded r0 = false ->
  (forall i, (i < K)%nat ->
     exists ri, nth_get client self i w2 = Returns ri /\
                succeeded ri = false) ->
  nth_get client self K w2 = Raises e ->
  let entry :=
    mkSt (Some r0) false initial_results w2
         [EvGet (resource_group_name self) (name self);
          EvCreate (resource_group_name self) (name self)
                   (create_parameters self)] in
  exists s',
    check_resource_created client self fuel entry = Some (Raise e, s') /\
    run client self fuel w =
      Some (if is_CloudError e then FailJson ("Failed with " +:+ str e)
            else Raise e, s') /\
    calls s' = calls entry
               ++ polls (resource_group_name self) (name self) (K + 1) /\
    results s' = initial_results.
Proof.
  intros Hfuel HK Hget Hmode Hcreate Hr0 Hpolls Hlast entry.
  destruct (wait_loop_raises client self K fuel 0 entry r0 e)
    as (s' & Hrun & (Hcalls & Hres & _) & _); auto; try lia.
  exists s'. rewrite check_resource_created_eq.
  split; [exact Hrun|].
  rewrite (run_enters_create_block client self fuel w code msg w1 Hget Hmode).
  rewrite create_block_eq. cbn [missing world calls results to_update app].
  rewrite Hcreate. fold entry. rewrite Hrun.
  split; [reflexivity|].
  replace (K + 1)%nat with (S K) by lia.
  split; [exact Hcalls|exact Hres].
Qed.

Lemma poll_error_ends_the_wait_witness :
  let client :=
    Mock.scripted
      (Mock.first_then (Raises Mock.forbidden)
         (Mock.first_then (Returns (Mock.cache "Running"))
            (Mock.always (Raises (PyException "connection reset")))))
      (Returns (Mock.cache "Creating")) (Returns tt) (Returns tt) in
  let self := Mock.desired absent true in
  let e := PyException "connection reset" in
  let entry :=
    mkSt (Some (Mock.cache "Creating")) false initial_results 1%nat
         [EvGet (resource_group_name self) (name self);
          EvCreate (resource_group_name self) (name self)
                   (create_parameters self)] in
  (180 <= 180)%nat /\
  (1 < 180)%nat /\
  redis_get client (resource_group_name self) (name self) 0%nat
  = (Raises (CloudError 403 "AuthorizationFailed"), 1%nat) /\
  check_mode self && State_eqb (state self) present = false /\
  redis_create client (resource_group_name self) (name self)
    (create_parameters self) 1%nat = (Returns (Mock.cache "Creating"), 1%nat) /\
  succeeded (Mock.cache "Creating") = false /\
  (forall i, (i < 1)%nat ->
     exists ri, nth_get client self i 1%nat = Returns ri /\
                succeeded ri = false) /\
  nth_get client self 1 1%nat = Raises e /\
  exists s',
    check_resource_created client self 180 entry = Some (Raise e, s') /\
    run client self 180 0%nat =
      Some (if is_CloudError e then FailJson ("Failed with " +:+ str e)
            else Raise e, s') /\
    calls s' = calls entry
               ++ polls (resource_group_name self) (name self) (1 + 1) /\
    results s' = initial_results.
Proof.
  intros client self e entry.
  assert (Hpolls : forall i, (i < 1)%nat ->
            exists ri, nth_get client self i 1%nat = Returns ri /\
                       succeeded ri = false).
  { intros i Hi. exists (Mock.cache "Running").
    destruct i as [|i]; [split; reflexivity|lia]. }
  split; [apply le_n|]. split; [lia|].
  split; [reflexivity|]. split; [reflexivity|]. split; [reflexivity|].
  split; [reflexivity|]. split; [exact Hpolls|]. split; [reflexivity|].
  exact (poll_error_ends_the_wait client self 180 1 0%nat 1%nat 1%nat 403
           "AuthorizationFailed" (Mock.cache "Creating") e (le_n 180)
           ltac:(lia) eq_refl eq_refl eq_refl eq_refl Hpolls eq_refl).
Defined.

(** X6: in every run that reaches the provisioning wait: when the create
    result and all 180 polls are not "Succeeded", the run fails with "Waited
    too long, resource might be created" holding the reply to the 180th
    poll: [populate_results] has copied that snapshot into [self.results],
    while [changed] is still [None] and [state] still the empty
    dictionary. *)
Theorem timeout_keeps_last_snapshot {W} (client : RedisClient W)
    (self : Params) (fuel : nat) (w w1 w2 : W) (code : Z) (msg : string)
    (r0 r_last : RedisResource) :
  (180 <= fuel)%nat ->
  redis_get client (resource_group_name self) (name self) w
  = (Raises (CloudError code msg), w1) ->
  check_mode self && State_eqb (state self) present = false ->
  redis_create client (resource_group_name self) (name self)
    (create_parameters self) w1 = (Returns r0, w2) ->
  succeeded r0 = false ->
  (forall i, (i < 179)%nat ->
     exists ri, nth_get client self i w2 = Returns ri /\
                succeeded ri = false) ->
  nth_get client self 179 w2 = Returns r_last ->
  succeeded r_last = false ->
  exists s',
    run client self fuel w = Some (FailJson waited_too_long, s') /\
    redis_cache s' = Some r_last /\
    results s' = populated r_last initial_results /\
    results s' !! "provisioning_state"
    = Some (of_option VStr (r_provisioning_state r_last)) /\
    results s' !! "changed" = Some VNone /\
    results s' !! "state" = Some (VDict ∅).
Proof.
  intros Hfuel Hget Hmode Hcreate Hr0 Hpolls Hlast Hrl.
  rewrite (run_enters_create_block client self fuel w code msg w1 Hget Hmode).
  rewrite create_block_eq. cbn [missing world calls results to_update app].
  rewrite Hcreate.
  rewrite (wait_loop_times_out_last client self 179 fuel 0 _ r0 r_last);
    cbn [redis_cache world]; auto; try lia.
  erewrite populate_results_some by reflexivity.
  eexists. split; [reflexivity|]. cbn [redis_cache results].
  split; [reflexivity|]. split; [reflexivity|].
  unfold populated.
  split; [simplify_map_eq; reflexivity|].
  split; repeat (rewrite lookup_insert_ne by discriminate);
    vm_compute; reflexivity.
Qed.

Lemma timeout_keeps_last_snapshot_witness :
  let client :=
    Mock.scripted
      (Mock.first_then (Raises Mock.not_found)
         (Mock.always (Returns (Mock.cache "Running"))))
      (Returns (Mock.cache "Creating")) (Returns tt) (Returns tt) in
  let self := Mock.desired absent false in
  (180 <= 180)%nat /\
  redis_get client (resource_group_name self) (name self) 0%nat
  = (Raises (CloudError 404 "ResourceNotFound"), 1%nat) /\
  check_mode self && State_eqb (state self) present = false /\
  redis_create client (resource_group_name self) (name self)
    (create_parameters self) 1%nat = (Returns (Mock.cache "Creating"), 1%nat) /\
  succeeded (Mock.cache "Creating") = false /\
  (forall i, (i < 179)%nat ->
     exists ri, nth_get client self i 1%nat = Returns ri /\
                succeeded ri = false) /\
  nth_get client self 179 1%nat = Returns (Mock.cache "Running") /\
  succeeded (Mock.cache "Running") = false /\
  exists s',
    run client self 180 0%nat = Some (FailJson waited_too_long, s') /\
    redis_cache s' = Some (Mock.cache "Running") /\
    results s' = populated (Mock.cache "Running") initial_results /\
    results s' !! "provisioning_state"
    = Some (of_option VStr (r_provisioning_state (Mock.cache "Running"))) /\
    results s' !! "changed" = Some VNone /\
    results s' !! "state" = Some (VDict ∅).
Proof.
  intros client self.
  assert (Hpolls : forall i, (i < 179)%nat ->
            exists ri, nth_get client self i 1%nat = Returns ri /\
                       succeeded ri = false).
  { intros i Hi. exists (Mock.cache "Running").
    unfold client. rewrite nth_get_scripted.
    replace (i + 1)%nat with (S i) by lia. split; reflexivity. }
  assert (Hlast : nth_get client self 179 1%nat
                  = Returns (Mock.cache "Running")).
  { unfold client. rewrite nth_get_scripted. reflexivity. }
  split; [apply le_n|].
  split; [reflexivity|]. split; [reflexivity|]. split; [reflexivity|].
  split; [reflexivity|]. split; [exact Hpolls|].
  split; [exact Hlast|]. split; [reflexivity|].
  exact (timeout_keeps_last_snapshot client self 180 0%nat 1%nat 1%nat 404
           "ResourceNotFound" (Mock.cache "Creating") (Mock.cache "Running")
           (le_n 180) eq_refl eq_refl eq_refl eq_refl Hpolls Hlast eq_refl).
Defined.

(** ** What every run leaves in [self.results] *)

Section Outcomes.

Context {W : Type}.
Variable client : RedisClient W.
Variable self : Params.

Let rg := resource_group_name self.
Let nm := name self.

Lemma surfaced_not_ok {A} (e : exn) (a : A) : surfaced e <> Ok a.
Proof. destruct e; discriminate. Qed.

Lemma surfaced_outcome e (s' : St W) :
  failed_results (results s') -> outcome_ok self (surfaced e) s'.
Proof. intros Hf. destruct e; exact Hf. Qed.

Lemma delete_block_outcome r w1 :
  state self = absent ->
  exists o s',
    delete_block client self (fetched self r w1) = Some (o, s') /\
    outcome_ok self o s'.
Proof.
  intros Hstate. rewrite delete_block_eq.
  cbn [fetched world calls results to_update redis_cache].
  destruct (redis_delete client (resource_group_name self) (name self) w1)
    as [[u|e] w2].
  - destruct (poller_result client w2) as [[u2|e] w3].
    + eexists. eexists. split; [reflexivity|]. cbn.
      split; [reflexivity|]. left. now rewrite Hstate.
    + eexists. eexists. split; [reflexivity|].
      apply surfaced_outcome. now left.
  - eexists. eexists. split; [reflexivity|].
    apply surfaced_outcome. now left.
Qed.

Lemma update_block_outcome r w1 :
  exists o s',
    update_block client self (fetched self r w1) = Some (o, s') /\
    outcome_ok self o s'.
Proof.
  rewrite update_block_eq.
  cbn [fetched world calls results to_update redis_cache].
  destruct (redis_create client (resource_group_name self) (name self)
              (create_parameters self) w1) as [[c|e] w2].
  - eexists. eexists. split; [reflexivity|]. cbn.
    split; [reflexivity|]. right. right. now exists c.
  - eexists. eexists. split; [reflexivity|].
    apply surfaced_outcome. now left.
Qed.

Lemma create_block_outcome fuel w1 :
  (180 <= fuel)%nat ->
  exists o s',
    create_block client self fuel (missing self w1) = Some (o, s') /\
    outcome_ok self o s'.
Proof.
  intros Hfuel. rewrite create_block_eq.
  cbn [missing world calls results to_update redis_cache].
  destruct (redis_create client (resource_group_name self) (name self)
              (create_parameters self) w1) as [[c|e] w2]; cbn zeta.
  2:{ eexists. eexists. split; [reflexivity|].
      apply surfaced_outcome. now left. }
  destruct (wait_loop_total client self fuel 0
              (mkSt (Some c) false initial_results w2
                    ([EvGet (resource_group_name self) (name self)]
                     ++ [EvCreate (resource_group_name self) (name self)
                                  (create_parameters self)])))
    as (r' & s' & n & Hrun & _ & (_ & Hres & _) & Hnf & Hsome & _);
    try lia.
  cbn [results] in Hres.
  destruct (Hsome ltac:(cbn; eauto)) as [c' Hc'].
  rewrite Hrun.
  destruct r' as [[|]|e|msg].
  - rewrite Hc', Hres. eexists. eexists. split; [reflexivity|]. cbn.
    split; [reflexivity|]. right. right. now exists c'.
  - rewrite (populate_results_some s' c' Hc'), Hres.
    eexists. eexists. split; [reflexivity|]. cbn. right. now exists c'.
  - eexists. eexists. split; [reflexivity|].
    apply surfaced_outcome. rewrite Hres. now left.
  - now destruct (Hnf msg).
Qed.

Lemma run_outcome fuel (w : W) :
  (180 <= fuel)%nat ->
  exists o s', run client self fuel w = Some (o, s') /\ outcome_ok self o s'.
Proof.
  intros Hfuel. unfold run.
  destruct (redis_get client rg nm w) as [[r|[code msg|msg]] w1] eqn:Hg.
  - rewrite (exec_module_found client self fuel w r w1 Hg).
    destruct (check_mode self).
    + eexists. eexists. split; [reflexivity|]. cbn.
      split; [reflexivity|]. now left.
    + destruct (state self) eqn:Hstate.
      * apply update_block_outcome.
      * now apply delete_block_outcome.
  - rewrite (exec_module_cloud_error client self fuel w code msg w1 Hg).
    destruct (check_mode self) eqn:Hcheck; cbn [andb].
    + destruct (state self) eqn:Hstate; cbn [State_eqb].
      * eexists. eexists. split; [reflexivity|]. cbn.
        split; [reflexivity|]. right. left.
        split; [exact Hcheck|]. split; [exact Hstate|reflexivity].
      * now apply create_block_outcome.
    + now apply create_block_outcome.
  - rewrite (exec_module_exception client self fuel w msg w1 Hg).
    eexists. eexists. split; [reflexivity|]. cbn. now left.
Qed.

End Outcomes.

Lemma dom_initial_results :
  dom initial_results
  = (list_to_set (snapshot_keys ++ ["changed"; "state"]) : gset string).
Proof. vm_compute. reflexivity. Qed.

Lemma dom_reported changed st (m : gmap string value) :
  dom m = dom initial_results ->
  dom (reported changed st m) = dom initial_results.
Proof.
  intros Hm. unfold reported. rewrite !dom_insert_L, Hm, dom_initial_results.
  unfold snapshot_keys. cbn [app]. set_solver.
Qed.

Lemma dom_populated c (m : gmap string value) :
  dom m = dom initial_results ->
  dom (populated c m) = dom initial_results.
Proof.
  intros Hm. unfold populated. rewrite !dom_insert_L, Hm, dom_initial_results.
  unfold snapshot_keys. cbn [app]. set_solver.
Qed.

Lemma dom_named_dry_run self :
  dom (named_dry_run self) = dom initial_results.
Proof.
  unfold named_dry_run. rewrite dom_insert_L, dom_reported by reflexivity.
  rewrite dom_initial_results. unfold snapshot_keys. cbn [app]. set_solver.
Qed.

Lemma outcome_ok_dom {W} self o (s' : St W) :
  outcome_ok self o s' -> dom (results s') = dom initial_results.
Proof.
  assert (Hfailed : forall m, failed_results m -> dom m = dom initial_results).
  { intros m [-> | [c ->]]; [reflexivity|]. now apply dom_populated. }
  destruct o as [m| |]; cbn; [|apply Hfailed..].
  intros [-> [-> | [(_ & _ & ->) | [c ->]]]].
  - now apply dom_reported.
  - apply dom_named_dry_run.
  - apply dom_populated. now apply dom_reported.
Qed.

(** X9: whatever the arguments and the provider, and however the run ends,
    [self.results] keeps exactly the fifteen keys [__init__] gave it, and a
    run that returns hands back that very dictionary. *)
Theorem result_keys_are_stable {W} (client : RedisClient W)
    (self : Params) (fuel : nat) (w : W) :
  (180 <= fuel)%nat ->
  exists o s',
    run client self fuel w = Some (o, s') /\
    dom (results s')
    = (list_to_set (snapshot_keys ++ ["changed"; "state"]) : gset string) /\
    size (dom (results s')) = 15%nat /\
    (forall m, o = Ok m -> m = results s').
Proof.
  intros Hfuel.
  destruct (run_outcome client self fuel w Hfuel) as (o & s' & Hrun & Hout).
  exists o, s'. split; [exact Hrun|].
  rewrite (outcome_ok_dom self o s' Hout), dom_initial_results.
  split; [reflexivity|]. split; [vm_compute; reflexivity|].
  intros m ->. cbn in Hout. now destruct Hout.
Qed.

Lemma result_keys_are_stable_witness :
  let client :=
    Mock.scripted
      (Mock.first_then (Raises Mock.not_found)
         (Mock.running_then_succeeded 3))
      (Returns (Mock.cache "Running")) (Returns tt) (Returns tt) in
  let self := Mock.desired present false in
  (180 <= 180)%nat /\
  exists o s',
    run client self 180 0%nat = Some (o, s') /\
    dom (results s')
    = (list_to_set (snapshot_keys ++ ["changed"; "state"]) : gset string) /\
    size (dom (results s')) = 15%nat /\
    (forall m, o = Ok m -> m = results s').
Proof.
  intros client self. split; [apply le_n|].
  exact (result_keys_are_stable client self 180 0%nat (le_n 180)).
Defined.

Lemma total_sleep_polls rg nm n :
  total_sleep (polls rg nm n) = 10 * Z.of_nat n.
Proof.
  induction n as [|n IH]; [reflexivity|].
  change (total_sleep (polls rg nm (S n)))
    with (10 + total_sleep (polls rg nm n)).
  rewrite IH. lia.
Qed.

(** X10: in every run each polling [get] is preceded by one sleep of ten
    seconds and nothing else sleeps: the time slept is ten seconds for each
    [get] after the initial fetch, and never more than 1800 seconds. *)
Theorem sleeps_ten_seconds_per_poll {W} (client : RedisClient W)
    (self : Params) (fuel : nat) (w : W) :
  (180 <= fuel)%nat ->
  exists o s',
    run client self fuel w = Some (o, s') /\
    (1 <= count_calls is_get (calls s'))%nat /\
    total_sleep (calls s')
    = 10 * (Z.of_nat (count_calls is_get (calls s')) - 1) /\
    total_sleep (calls s') <= 1800.
Proof.
  intros Hfuel.
  destruct (run_leaves_trace client self fuel w Hfuel) as (o & s' & Hrun & Htr).
  exists o, s'. split; [exact Hrun|].
  destruct Htr as [| | |n Hn]; try (cbn; lia).
  change (EvGet (resource_group_name self) (name self)
          :: EvCreate (resource_group_name self) (name self)
                      (create_parameters self)
          :: polls (resource_group_name self) (name self) n)
    with ([EvGet (resource_group_name self) (name self);
           EvCreate (resource_group_name self) (name self)
                    (create_parameters self)]
          ++ polls (resource_group_name self) (name self) n).
  rewrite count_calls_app, count_get_polls.
  assert (Hsleep : total_sleep
            ([EvGet (resource_group_name self) (name self);
              EvCreate (resource_group_name self) (name self)
                       (create_parameters self)]
             ++ polls (resource_group_name self) (name self) n)
          = 10 * Z.of_nat n) by (cbn; apply total_sleep_polls).
  rewrite Hsleep. cbn. lia.
Qed.

Lemma sleeps_ten_seconds_per_poll_witness :
  let client :=
    Mock.scripted
      (Mock.first_then (Raises Mock.not_found)
         (Mock.running_then_succeeded 3))
      (Returns (Mock.cache "Running")) (Returns tt) (Returns tt) in
  let self := Mock.desired present false in
  (180 <= 180)%nat /\
  exists o s',
    run client self 180 0%nat = Some (o, s') /\
    (1 <= count_calls is_get (calls s'))%nat /\
    total_sleep (calls s')
    = 10 * (Z.of_nat (count_calls is_get (calls s')) - 1) /\
    total_sleep (calls s') <= 1800.
Proof.
  intros client self. split; [apply le_n|].
  exact (sleeps_ten_seconds_per_poll client self 180 0%nat (le_n 180)).
Defined.

Lemma polls_on_resource rg nm n : Forall (on_resource rg nm) (polls rg nm n).
Proof.
  induction n as [|n IH]; cbn [polls]; repeat constructor. exact IH.
Qed.

(** X11: every call a run makes on the provider names the resource group
    and the cache of the arguments: the module never reads, creates or
    deletes any other cache, and the fetch of that cache is always its first
    call. *)
Theorem calls_target_the_desired_cache {W} (client : RedisClient W)
    (self : Params) (fuel : nat) (w : W) :
  (180 <= fuel)%nat ->
  exists o s' tail,
    run client self fuel w = Some (o, s') /\
    calls s' = EvGet (resource_group_name self) (name self) :: tail /\
    Forall (on_resource (resource_group_name self) (name self)) (calls s').
Proof.
  intros Hfuel.
  destruct (run_leaves_trace client self fuel w Hfuel) as (o & s' & Hrun & Htr).
  exists o, s'.
  destruct Htr as [| | |n Hn]; eexists; (split; [exact Hrun|]);
    (split; [reflexivity|]); repeat constructor.
  apply polls_on_resource.
Qed.

Lemma calls_target_the_desired_cache_witness :
  let client :=
    Mock.scripted (Mock.always (Returns (Mock.cache "Succeeded")))
      (Returns (Mock.cache "Running")) (Returns tt) (Returns tt) in
  let self := Mock.desired absent false in
  (180 <= 180)%nat /\
  exists o s' tail,
    run client self 180 0%nat = Some (o, s') /\
    calls s' = EvGet (resource_group_name self) (name self) :: tail /\
    Forall (on_resource (resource_group_name self) (name self)) (calls s').
Proof.
  intros client self. split; [apply le_n|].
  exact (calls_target_the_desired_cache client self 180 0%nat (le_n 180)).
Defined.

(** ** What a run reports *)

(** Closes [k ∉ populated_keys] for a literal key [k]. *)
Ltac not_populated_key :=
  let Hin := fresh "Hin" in
  unfold populated_keys; intros Hin;
  repeat (apply elem_of_cons in Hin as [Hin|Hin]; [discriminate|]);
  now apply elem_of_nil in Hin.

Lemma populated_other c (m : gmap string value) k :
  k ∉ populated_keys -> populated c m !! k = m !! k.
Proof.
  intros Hk. unfold populated.
  repeat (rewrite lookup_insert_ne;
          [|intros <-; apply Hk; unfold populated_keys; set_solver]).
  reflexivity.
Qed.

Lemma populated_twice c1 c2 (m : gmap string value) :
  populated c2 (populated c1 m) = populated c2 m.
Proof.
  apply map_eq. intros k.
  destruct (decide (k ∈ populated_keys)) as [Hk|Hk].
  - unfold populated_keys in Hk.
    repeat (apply elem_of_cons in Hk as [->|Hk];
            [unfold populated; simplify_map_eq; reflexivity|]).
    now apply elem_of_nil in Hk.
  - now rewrite !populated_other.
Qed.

(** X12: [populate_results] with a cache object in hand never raises,
    assigns the ten keys of [populated_keys] and leaves every other key of
    [self.results] as it was; run again after [self.redis_cache] changed, it
    leaves no trace of the earlier snapshot. *)
Theorem populate_results_overwrites {W} (s : St W) (c1 c2 : RedisResource) :
  redis_cache s = Some c1 ->
  exists s1 s2,
    populate_results s = Some (Ok tt, s1) /\
    calls s1 = calls s /\
    (forall k, k ∉ populated_keys -> results s1 !! k = results s !! k) /\
    populate_results (mkSt (Some c2) (to_update s1) (results s1) (world s1)
                           (calls s1)) = Some (Ok tt, s2) /\
    results s2 = populated c2 (results s).
Proof.
  intros Hc. rewrite (populate_results_some s c1 Hc).
  eexists. eexists. split; [reflexivity|]. cbn [calls results].
  split; [reflexivity|].
  split; [intros k Hk; now apply populated_other|].
  erewrite populate_results_some by reflexivity.
  split; [reflexivity|]. cbn [results]. apply populated_twice.
Qed.

Lemma populate_results_overwrites_witness :
  let s : St nat := Mock.created (Mock.cache "Running") in
  redis_cache s = Some (Mock.cache "Running") /\
  exists s1 s2,
    populate_results s = Some (Ok tt, s1) /\
    calls s1 = calls s /\
    (forall k, k ∉ populated_keys -> results s1 !! k = results s !! k) /\
    populate_results (mkSt (Some (Mock.cache "Succeeded")) (to_update s1)
                           (results s1) (world s1) (calls s1))
    = Some (Ok tt, s2) /\
    results s2 = populated (Mock.cache "Succeeded") (results s).
Proof.
  intros s. split; [reflexivity|].
  exact (populate_results_overwrites s (Mock.cache "Running")
           (Mock.cache "Succeeded") eq_refl).
Defined.

Lemma outcome_ok_unreported {W} self o (s' : St W) k :
  k ∉ populated_keys -> k <> "changed" -> k <> "state" -> k <> "name" ->
  outcome_ok self o s' -> results s' !! k = initial_results !! k.
Proof.
  intros Hk Hc Hs Hn.
  assert (Hrep : forall b st,
            reported b st initial_results !! k = initial_results !! k).
  { intros b st. unfold reported. now rewrite !lookup_insert_ne. }
  assert (Hfailed : forall m,
            failed_results m -> m !! k = initial_results !! k).
  { intros m [-> | [c ->]]; [reflexivity|]. now apply populated_other. }
  destruct o as [m| |]; cbn; [|apply Hfailed..].
  intros [-> [-> | [(_ & _ & ->) | [c ->]]]].
  - apply Hrep.
  - unfold named_dry_run. now rewrite lookup_insert_ne, Hrep.
  - now rewrite populated_other, Hrep.
Qed.

(** X13: whatever the arguments and the provider, and however the run ends,
    the [redis_configuration], [port] and [ssl_port] entries of
    [self.results] are still [None]: no branch ever reports them. *)
Theorem port_and_configuration_never_reported {W} (client : RedisClient W)
    (self : Params) (fuel : nat) (w : W) :
  (180 <= fuel)%nat ->
  exists o s',
    run client self fuel w = Some (o, s') /\
    results s' !! "redis_configuration" = Some VNone /\
    results s' !! "port" = Some VNone /\
    results s' !! "ssl_port" = Some VNone.
Proof.
  intros Hfuel.
  destruct (run_outcome client self fuel w Hfuel) as (o & s' & Hrun & Hout).
  exists o, s'. split; [exact Hrun|].
  assert (Hkeep : forall k,
            k ∉ populated_keys -> k <> "changed" -> k <> "state" ->
            k <> "name" -> initial_results !! k = Some VNone ->
            results s' !! k = Some VNone).
  { intros k H1 H2 H3 H4 <-.
    now apply (outcome_ok_unreported self o s' k). }
  repeat split;
    (apply Hkeep;
     [ not_populated_key
     | discriminate | discriminate | discriminate | reflexivity ]).
Qed.

Lemma port_and_configuration_never_reported_witness :
  let client :=
    Mock.scripted
      (Mock.first_then (Raises Mock.not_found)
         (Mock.running_then_succeeded 3))
      (Returns (Mock.cache "Running")) (Returns tt) (Returns tt) in
  let self := Mock.desired present false in
  (180 <= 180)%nat /\
  exists o s',
    run client self 180 0%nat = Some (o, s') /\
    results s' !! "redis_configuration" = Some VNone /\
    results s' !! "port" = Some VNone /\
    results s' !! "ssl_port" = Some VNone.
Proof.
  intros client self. split; [apply le_n|].
  exact (port_and_configuration_never_reported client self 180 0%nat
           (le_n 180)).
Defined.

(** X14: a run that returns always assigned [changed] a boolean and [state]
    one of 'present' and 'absent'; it reports 'absent' only when that was
    the requested state, and [changed = False] only in check mode with
    [state = present]. *)
Theorem returned_changed_and_state {W} (client : RedisClient W)
    (self : Params) (fuel : nat) (w : W) :
  (180 <= fuel)%nat ->
  exists o s',
    run client self fuel w = Some (o, s') /\
    forall m, o = Ok m ->
      exists b st,
        m !! "changed" = Some (VBool b) /\
        m !! "state" = Some (VStr (State_str st)) /\
        (st = absent -> state self = absent /\ b = true) /\
        (b = false -> check_mode self = true /\ state self = present).
Proof.
  intros Hfuel.
  destruct (run_outcome client self fuel w Hfuel) as (o & s' & Hrun & Hout).
  exists o, s'. split; [exact Hrun|].
  intros m ->. cbn in Hout.
  destruct Hout as [_ [-> | [(Hcheck & Hstate & ->) | [c ->]]]].
  - exists true, (state self). unfold reported.
    split; [simplify_map_eq; reflexivity|].
    split; [simplify_map_eq; reflexivity|].
    split; [auto|discriminate].
  - exists false, present. unfold named_dry_run, reported.
    split; [simplify_map_eq; reflexivity|].
    split; [simplify_map_eq; reflexivity|].
    split; [discriminate|auto].
  - exists true, present.
    rewrite !populated_other by not_populated_key.
    unfold reported.
    split; [simplify_map_eq; reflexivity|].
    split; [simplify_map_eq; reflexivity|].
    split; discriminate.
Qed.

Lemma returned_changed_and_state_witness :
  let client :=
    Mock.scripted (Mock.always (Returns (Mock.cache "Succeeded")))
      (Returns (Mock.cache "Running")) (Returns tt) (Returns tt) in
  let self := Mock.desired absent false in
  (180 <= 180)%nat /\
  exists o s',
    run client self 180 0%nat = Some (o, s') /\
    forall m, o = Ok m ->
      exists b st,
        m !! "changed" = Some (VBool b) /\
        m !! "state" = Some (VStr (State_str st)) /\
        (st = absent -> state self = absent /\ b = true) /\
        (b = false -> check_mode self = true /\ state self = present).
Proof.
  intros client self. split; [apply le_n|].
  exact (returned_changed_and_state client self 180 0%nat (le_n 180)).
Defined.

(** X15: a fetch that raises anything but a [CloudError] ends the run at
    once, in check mode or not and whatever the requested state: the
    exception escapes as it is, the fetch is the only call made, and
    [self.results], [self.redis_cache] and [self.to_update] are as
    [__init__] left them. *)
Theorem fetch_exception_escapes_untouched {W} (client : RedisClient W)
    (self : Params) (fuel : nat) (w : W) (msg : string) (w1 : W) :
  redis_get client (resource_group_name self) (name self) w
  = (Raises (PyException msg), w1) ->
  run client self fuel w =
    Some (Raise (PyException msg),
          mkSt None false initial_results w1
               [EvGet (resource_group_name self) (name self)]).
Proof.
  intros Hget. unfold run.
  now rewrite (exec_module_exception client self fuel w msg w1 Hget).
Qed.

Lemma fetch_exception_escapes_untouched_witness :
  let client :=
    Mock.scripted (Mock.always (Raises (PyException "connection refused")))
      (Returns (Mock.cache "Running")) (Returns tt) (Returns tt) in
  let self := Mock.desired absent true in
  redis_get client (resource_group_name self) (name self) 0%nat
  = (Raises (PyException "connection refused"), 1%nat) /\
  run client self 0 0%nat =
    Some (Raise (PyException "connection refused"),
          mkSt None false initial_results 1%nat
               [EvGet (resource_group_name self) (name self)]).
Proof.
  intros client self. split; [reflexivity|].
  exact (fetch_exception_escapes_untouched client self 0 0%nat
           "connection refused" 1%nat eq_refl).
Defined.

(** ** The lazily built client *)

Section ClientPropertyFacts.

Context {H C : Type}.
Variable RedisManagementClient : C -> string -> H.
Variable azure_credentials : C.
Variable subscription_id : string.

Let reads := redis_client_reads RedisManagementClient azure_credentials
               subscription_id.

(** Reads that find a client in the attribute reuse it. *)
Lemma redis_client_reads_held n : forall (a : ClientAttr) h,
  _redis_client a = Some h ->
  reads n a =
    (replicate n (Some h),
     mkClientAttr (Some h) (constructed a)
                  (registered a ++ replicate n "Microsoft.Cache")).
Proof.
  induction n as [|n IH]; intros [o k regs] h Ha; cbn in Ha; subst o.
  - cbn. now rewrite app_nil_r.
  - unfold reads in *. cbn [redis_client_reads redis_client _redis_client
                             constructed registered].
    erewrite IH by reflexivity. cbn [constructed registered replicate].
    now rewrite <- app_assoc.
Qed.

(** X16: within an invocation, where [exec_module] has reset
    [self._redis_client] to [None], any number of reads of the
    [redis_client] property construct the management client exactly once, on
    the first read, hand the same client back every time, and register the
    'Microsoft.Cache' provider once per read. *)
Theorem redis_client_is_built_once (n : nat) :
  let client := RedisManagementClient azure_credentials subscription_id in
  reads (S n) client_unset =
    (replicate (S n) (Some client),
     mkClientAttr (Some client) 1
                  (replicate (S n) "Microsoft.Cache")).
Proof.
  intros client. unfold reads.
  cbn [redis_client_reads redis_client client_unset _redis_client
       constructed registered app].
  fold client.
  pose proof (redis_client_reads_held n
                (mkClientAttr (Some client) 1 ["Microsoft.Cache"]) client
                eq_refl) as Hheld.
  unfold reads in Hheld. rewrite Hheld. reflexivity.
Qed.

End ClientPropertyFacts.

(** ** Copying the arguments onto [self] *)

Lemma setattr_loop_complete {V : Type} (keys : list string) :
  forall (kwargs attrs : gmap string V),
  (forall k, k ∈ keys -> is_Some (kwargs !! k)) ->
  exists attrs',
    setattr_loop keys kwargs attrs = (None, attrs') /\
    (forall k, k ∈ keys -> attrs' !! k = kwargs !! k) /\
    (forall k, k ∉ keys -> attrs' !! k = attrs !! k).
Proof.
  induction keys as [|key rest IH]; intros kwargs attrs Hall.
  - exists attrs. split; [reflexivity|]. split; [|reflexivity].
    intros k Hk. now apply elem_of_nil in Hk.
  - destruct (Hall key ltac:(left)) as [v Hv].
    destruct (IH kwargs (<[key := v]> attrs)) as (attrs' & Hrun & Hin & Hout).
    { intros k Hk. apply Hall. now right. }
    exists attrs'. cbn [setattr_loop]. rewrite Hv.
    split; [exact Hrun|]. split.
    + intros k Hk. destruct (decide (k ∈ rest)) as [Hr|Hr]; [now apply Hin|].
      apply elem_of_cons in Hk as [->|Hk]; [|contradiction].
      rewrite (Hout key Hr), lookup_insert_eq. now symmetry.
    + intros k Hk. apply not_elem_of_cons in Hk as [Hne Hr].
      rewrite (Hout k Hr). now apply lookup_insert_ne.
Qed.

Lemma setattr_loop_missing {V : Type} (keys : list string) :
  forall (kwargs attrs : gmap string V) k,
  k ∈ keys -> kwargs !! k = None ->
  exists k' attrs',
    setattr_loop keys kwargs attrs = (Some k', attrs') /\
    k' ∈ keys /\ kwargs !! k' = None /\
    (forall j, j ∉ keys -> attrs' !! j = attrs !! j).
Proof.
  induction keys as [|key rest IH]; intros kwargs attrs k Hk Hnone.
  - now apply elem_of_nil in Hk.
  - cbn [setattr_loop]. destruct (kwargs !! key) as [v|] eqn:Hv.
    + apply elem_of_cons in Hk as [->|Hk]; [congruence|].
      destruct (IH kwargs (<[key := v]> attrs) k Hk Hnone)
        as (k' & attrs' & Hrun & Hin & Hmiss & Hout).
      exists k', attrs'. split; [exact Hrun|]. split; [now right|].
      split; [exact Hmiss|].
      intros j Hj. apply not_elem_of_cons in Hj as [Hne Hr].
      rewrite (Hout j Hr). now apply lookup_insert_ne.
    + exists key, attrs. split; [reflexivity|]. split; [now left|].
      split; [exact Hv|reflexivity].
Qed.

(** X17: when [kwargs] holds every key of [module_arg_spec], the loop at
    the top of [exec_module] ends without a [KeyError] in whatever order the
    dictionary yields its keys; afterwards each of the thirteen attributes
    equals the value [kwargs] holds for it (the second assignment of [tags]
    changes nothing) and no other attribute of [self] was touched. *)
Theorem copy_arguments_copies_every_key {V : Type} (order : list string)
    (kwargs attrs : gmap string V) :
  (forall k, k ∈ order <-> k ∈ module_arg_spec_keys) ->
  (forall k, k ∈ module_arg_spec_keys -> is_Some (kwargs !! k)) ->
  exists attrs',
    copy_arguments order kwargs attrs = (None, attrs') /\
    (forall k, k ∈ module_arg_spec_keys -> attrs' !! k = kwargs !! k) /\
    (forall k, k ∉ module_arg_spec_keys -> attrs' !! k = attrs !! k).
Proof.
  intros Horder Hall. unfold copy_arguments.
  assert (Hkeys : forall k,
            k ∈ order ++ ["tags"] <-> k ∈ module_arg_spec_keys).
  { intros k. rewrite elem_of_app, Horder, list_elem_of_singleton.
    split; [intros [Hk | ->]; [exact Hk|]|now left].
    unfold module_arg_spec_keys. do 4 right. left. }
  destruct (setattr_loop_complete (order ++ ["tags"]) kwargs attrs)
    as (attrs' & Hrun & Hin & Hout).
  { intros k Hk. apply Hall. now apply Hkeys. }
  exists attrs'. split; [exact Hrun|]. split.
  - intros k Hk. apply Hin. now apply Hkeys.
  - intros k Hk. apply Hout. intros Hk'. apply Hk. now apply Hkeys.
Qed.

Lemma copy_arguments_copies_every_key_witness :
  let kwargs : gmap string nat :=
    list_to_map (map (fun k => (k, 7%nat)) module_arg_spec_keys) in
  let attrs : gmap string nat := {[ "to_update" := 0%nat ]} in
  (forall k, k ∈ module_arg_spec_keys <-> k ∈ module_arg_spec_keys) /\
  (forall k, k ∈ module_arg_spec_keys -> is_Some (kwargs !! k)) /\
  exists attrs',
    copy_arguments module_arg_spec_keys kwargs attrs = (None, attrs') /\
    (forall k, k ∈ module_arg_spec_keys -> attrs' !! k = kwargs !! k) /\
    (forall k, k ∉ module_arg_spec_keys -> attrs' !! k = attrs !! k).
Proof.
  intros kwargs attrs.
  assert (Horder : forall k : string,
            k ∈ module_arg_spec_keys <-> k ∈ module_arg_spec_keys)
    by (intros k; reflexivity).
  assert (Hall : forall k, k ∈ module_arg_spec_keys -> is_Some (kwargs !! k)).
  { intros k Hk. unfold module_arg_spec_keys in Hk.
    repeat (apply elem_of_cons in Hk as [->|Hk]; [eexists; reflexivity|]).
    now apply elem_of_nil in Hk. }
  split; [exact Horder|]. split; [exact Hall|].
  exact (copy_arguments_copies_every_key module_arg_spec_keys kwargs attrs
           Horder Hall).
Defined.

(** X18: when [kwargs] lacks a key of [module_arg_spec], the loop raises
    [KeyError] for a key that [kwargs] lacks, in whatever order the
    dictionary yields its keys, and no attribute outside the thirteen was
    touched before it raised. *)
Theorem copy_arguments_raises_on_missing_key {V : Type} (order : list string)
    (kwargs attrs : gmap string V) (k : string) :
  (forall k, k ∈ order <-> k ∈ module_arg_spec_keys) ->
  k ∈ module_arg_spec_keys ->
  kwargs !! k = None ->
  exists k' attrs',
    copy_arguments order kwargs attrs = (Some k', attrs') /\
    k' ∈ module_arg_spec_keys /\
    kwargs !! k' = None /\
    (forall j, j ∉ module_arg_spec_keys -> attrs' !! j = attrs !! j).
Proof.
  intros Horder Hk Hnone. unfold copy_arguments.
  assert (Hkeys : forall k,
            k ∈ order ++ ["tags"] <-> k ∈ module_arg_spec_keys).
  { intros j. rewrite elem_of_app, Horder, list_elem_of_singleton.
    split; [intros [Hj | ->]; [exact Hj|]|now left].
    unfold module_arg_spec_keys. do 4 right. left. }
  destruct (setattr_loop_missing (order ++ ["tags"]) kwargs attrs k)
    as (k' & attrs' & Hrun & Hin & Hmiss & Hout);
    [now apply Hkeys|exact Hnone|].
  exists k', attrs'. split; [exact Hrun|]. split; [now apply Hkeys|].
  split; [exact Hmiss|].
  intros j Hj. apply Hout. intros Hj'. apply Hj. now apply Hkeys.
Qed.

Lemma copy_arguments_raises_on_missing_key_witness :
  let kwargs : gmap string nat := {[ "name" := 1%nat; "state" := 2%nat ]} in
  let attrs : gmap string nat := {[ "to_update" := 0%nat ]} in
  (forall k, k ∈ module_arg_spec_keys <-> k ∈ module_arg_spec_keys) /\
  "location" ∈ module_arg_spec_keys /\
  kwargs !! "location" = None /\
  exists k' attrs',
    copy_arguments module_arg_spec_keys kwargs attrs = (Some k', attrs') /\
    k' ∈ module_arg_spec_keys /\
    kwargs !! k' = None /\
    (forall j, j ∉ module_arg_spec_keys -> attrs' !! j = attrs !! j).
Proof.
  intros kwargs attrs.
  assert (Horder : forall k : string,
            k ∈ module_arg_spec_keys <-> k ∈ module_arg_spec_keys)
    by (intros k; reflexivity).
  assert (Hk : "location" ∈ module_arg_spec_keys)
    by (unfold module_arg_spec_keys; right; right; left).
  split; [exact Horder|]. split; [exact Hk|]. split; [reflexivity|].
  exact (copy_arguments_raises_on_missing_key module_arg_spec_keys kwargs
           attrs "location" Horder Hk eq_refl).
Defined.
